(** * Text extraction scripts (DOCX, HTML, PDF): model and verification

    The three scripts [extract_docx_text.py], [extract_html_text.py] and
    [extract_pdf_text.py] are embedded as functions over Python strings
    (sequences of Unicode code points), with the parsing libraries
    (python-docx, BeautifulSoup, PyPDF2) represented by the values they hand
    to the scripts: a list of paragraphs, a node tree, a list of page texts. *)

From Stdlib Require Import ZArith List Bool Lia String Ascii.
Import ListNotations.
#[local] Set Warnings "-register-all".
Open Scope Z_scope.

(** ** Python strings *)

(** A [str] is a sequence of code points. *)
Abbreviation char := Z (only parsing).
Abbreviation str := (list Z) (only parsing).

(** ASCII literals, written as Rocq strings. *)
Definition lit (s : string) : str :=
  map (fun a => Z.of_N (N_of_ascii a)) (list_ascii_of_string s).

Definition str_eqb (a b : str) : bool :=
  if list_eq_dec Z.eq_dec a b then true else false.

(** Truth value of a string: [if text:]. *)
Definition truthy (s : str) : bool :=
  match s with [] => false | _ :: _ => true end.

(** The interpreter's Unicode database, as far as [\w] needs it: which code
    points above ASCII are alphanumeric ([str.isalnum]).  It is supplied by
    the Python runtime, not by the scripts. *)
Class UnicodeData := { unicode_isalnum : char -> bool }.

Module Py.

(** [str.isspace] on one code point; the same test is behind [\s],
    [str.strip()] and [str.split()]. *)
Definition isspace (c : char) : bool :=
  ((9 <=? c) && (c <=? 13)) || ((28 <=? c) && (c <=? 31)) || (c =? 32)
  || (c =? 133) || (c =? 160) || (c =? 5760)
  || ((8192 <=? c) && (c <=? 8202)) || (c =? 8232) || (c =? 8233)
  || (c =? 8239) || (c =? 8287) || (c =? 12288).

Definition ascii_isalnum (c : char) : bool :=
  ((48 <=? c) && (c <=? 57)) || ((65 <=? c) && (c <=? 90))
  || ((97 <=? c) && (c <=? 122)).

Definition isalnum `{UnicodeData} (c : char) : bool :=
  if c <? 128 then ascii_isalnum c else unicode_isalnum c.

(** [s.lstrip()], [s.rstrip()], [s.strip()]. *)
Fixpoint lstrip (s : str) : str :=
  match s with
  | [] => []
  | c :: s' => if isspace c then lstrip s' else s
  end.

Definition rstrip (s : str) : str := rev (lstrip (rev s)).

Definition strip (s : str) : str := rstrip (lstrip s).

(** [sep.join(parts)]. *)
Fixpoint join (sep : str) (parts : list str) : str :=
  match parts with
  | [] => []
  | [p] => p
  | p :: rest => p ++ sep ++ join sep rest
  end.

(** [s.split(sep)] for a one-character separator: the segments between
    the separators, the current segment carried in [cur] (reversed). *)
Fixpoint split_on_aux (sep : char) (cur : str) (s : str) : list str :=
  match s with
  | [] => [rev cur]
  | c :: s' =>
      if c =? sep then rev cur :: split_on_aux sep [] s'
      else split_on_aux sep (c :: cur) s'
  end.

Definition split_on (sep : char) (s : str) : list str :=
  split_on_aux sep [] s.

(** [s.split()]: the maximal runs of non-whitespace characters. *)
Fixpoint split_aux (cur : str) (s : str) : list str :=
  match s with
  | [] => match cur with [] => [] | _ => [rev cur] end
  | c :: s' =>
      if isspace c
      then match cur with
           | [] => split_aux [] s'
           | _ => rev cur :: split_aux [] s'
           end
      else split_aux (c :: cur) s'
  end.

Definition split (s : str) : list str := split_aux [] s.

(** [s.startswith(p)]. *)
Fixpoint startswith (p s : str) : bool :=
  match p, s with
  | [], _ => true
  | _ :: _, [] => false
  | a :: p', b :: s' => (a =? b) && startswith p' s'
  end.

(** [s.replace(old, new)] for a non-empty [old]: scan from the left, and at
    each occurrence emit [new] and skip the rest of the occurrence
    ([skip] counts the characters still to be skipped). *)
Fixpoint replace_aux (old new : str) (skip : nat) (s : str) : str :=
  match s with
  | [] => []
  | c :: s' =>
      match skip with
      | S k => replace_aux old new k s'
      | O =>
          if startswith old s
          then new ++ replace_aux old new (Nat.pred (List.length old)) s'
          else c :: replace_aux old new O s'
      end
  end.

(** With an empty [old], Python puts [new] before every character and at
    the end. *)
Definition replace (old new : str) (s : str) : str :=
  match old with
  | [] => flat_map (fun c => new ++ [c]) s ++ new
  | _ :: _ => replace_aux old new O s
  end.

End Py.

(** ** Regular expressions used by [clean_text] *)

Module Re.
Section Classes.
Context `{UnicodeData}.

(** [\w]: alphanumeric or underscore. *)
Definition word (c : char) : bool := Py.isalnum c || (c =? 95).

(** [\s]. *)
Definition space (c : char) : bool := Py.isspace c.

(** [re.sub(cls, ' ', text)] for a pattern that is one character class:
    every character of the class becomes one space. *)
Definition sub_class (cls : char -> bool) (text : str) : str :=
  map (fun c => if cls c then 32 else c) text.

(** [re.sub(r'\s+', ' ', text)]: every maximal run of whitespace becomes
    one space.  [in_run] says that the previous character was
    whitespace, so that the run's space has been emitted already. *)
Fixpoint sub_space_runs_aux (in_run : bool) (text : str) : str :=
  match text with
  | [] => []
  | c :: t =>
      if space c
      then if in_run then sub_space_runs_aux true t
           else 32 :: sub_space_runs_aux true t
      else c :: sub_space_runs_aux false t
  end.

Definition sub_space_runs (text : str) : str :=
  sub_space_runs_aux false text.

End Classes.
End Re.

(** ** The result mapping and the outputs *)

(** [extracted_texts] is a Python dict from key to cleaned text.  A dict
    iterates in insertion order, and assigning to a key that is present
    keeps the key's place: an association list, updated in place. *)
Module Dict.

Definition t := list (str * str).

Fixpoint set (d : t) (k v : str) : t :=
  match d with
  | [] => [(k, v)]
  | (k', v') :: d' =>
      if str_eqb k' k then (k', v) :: d' else (k', v') :: set d' k v
  end.

Fixpoint get (d : t) (k : str) : option str :=
  match d with
  | [] => None
  | (k', v') :: d' => if str_eqb k' k then Some v' else get d' k
  end.

Definition keys (d : t) : list str := map fst d.

(** [if not extracted_texts:]. *)
Definition is_empty (d : t) : bool :=
  match d with [] => true | _ :: _ => false end.

End Dict.

(** One row of the metadata table. *)
Record metadata_row := {
  filename : str;
  character_count : nat;
  word_count : nat;
  line_count : nat
}.

(** What a run leaves on disk, in order: the output directory made by the
    constructor, text files written with [f.write], and the table written
    with [to_csv] (file names are relative to the output directory). *)
Inductive fs_op :=
| Mkdir (dir : str)
| WriteText (name : str) (content : str)
| WriteCsv (name : str) (rows : list metadata_row).

Definition is_write (op : fs_op) : bool :=
  match op with Mkdir _ => false | _ => true end.

(** The three output methods are the same in the three scripts up to the
    names of the combined file and of the table. *)
Module Writer.
Section Names.
Variable combined_name : str.
Variable metadata_name : str.

(** [save_extracted_texts]: one [{filename}.txt] per entry. *)
Definition save_extracted_texts (extracted_texts : Dict.t) : list fs_op :=
  map (fun kv => WriteText (fst kv ++ lit ".txt") (snd kv)) extracted_texts.

(** The block appended for one entry:
    [f"=== {filename} ===\n{text}\n"]. *)
Definition block (filename text : str) : str :=
  lit "=== " ++ filename ++ lit " ===" ++ [10] ++ text ++ [10].

Definition combined_text (extracted_texts : Dict.t) : str :=
  let all_text :=
    fold_left (fun all_text kv => all_text ++ [block (fst kv) (snd kv)])
              extracted_texts [] in
  Py.join [10] all_text.

Definition create_combined_dataset (extracted_texts : Dict.t) : list fs_op :=
  [WriteText combined_name (combined_text extracted_texts)].

Definition metadata (extracted_texts : Dict.t) : list metadata_row :=
  fold_left
    (fun metadata kv =>
       let text := snd kv in
       metadata ++
         [{| filename := fst kv;
             character_count := List.length text;
             word_count := List.length (Py.split text);
             line_count := List.length (Py.split_on 10 text) |}])
    extracted_texts [].

Definition create_metadata (extracted_texts : Dict.t) : list fs_op :=
  [WriteCsv metadata_name (metadata extracted_texts)].

End Names.
End Writer.

(** ** extract_docx_text.py *)

Module DocxTextExtractor.

(** A [.docx] file found by [glob]: its stem and what [Document] gives,
    the paragraphs' texts in document order ([None]: the reader raised). *)
Record docx_file := { stem : str; paragraphs : option (list str) }.

Section Extractor.
Context `{UnicodeData}.

(** The characters the first substitution keeps.  The pattern is the
    raw literal [r'[^\w\s\u00C0-\u1EF9\u1EA0-\u1EF9.,!?;:()..'] (the dots
    stand for two double quotes) followed by a second literal holding the
    ellipsis U+2026 and the closing bracket: the two apostrophes end the
    first literal and open the second, so the apostrophe is not in the
    class. *)
Definition kept (c : char) : bool :=
  Re.word c || Re.space c
  || ((192 <=? c) && (c <=? 7929)) || ((7840 <=? c) && (c <=? 7929))
  || existsb (Z.eqb c) [46; 44; 33; 63; 59; 58; 40; 41; 34; 34; 8230].

Definition clean_text (text : str) : str :=
  let text := Re.sub_class (fun c => negb (kept c)) text in
  let text := Re.sub_space_runs text in
  Py.strip text.

(** The text before cleaning: the trimmed non-empty paragraphs, joined
    with newlines. *)
Definition joined_paragraphs (ps : list str) : str :=
  let full_text :=
    fold_left (fun full_text p =>
                 if truthy (Py.strip p) then full_text ++ [Py.strip p]
                 else full_text)
              ps [] in
  Py.join [10] full_text.

Definition extract_text_from_docx (f : docx_file) : str :=
  match paragraphs f with
  | Some ps => clean_text (joined_paragraphs ps)
  | None => []
  end.

Definition process_all_docx_files (docx_files : list docx_file) : Dict.t :=
  fold_left
    (fun extracted_texts docx_file =>
       let text := extract_text_from_docx docx_file in
       if truthy text then Dict.set extracted_texts (stem docx_file) text
       else extracted_texts)
    docx_files [].

Definition save_extracted_texts : Dict.t -> list fs_op :=
  Writer.save_extracted_texts.

Definition create_combined_dataset : Dict.t -> list fs_op :=
  Writer.create_combined_dataset (lit "combined_novel_text.txt").

Definition create_metadata : Dict.t -> list fs_op :=
  Writer.create_metadata (lit "metadata.csv").

(** [main]: the constructor makes the output directory; the run stops when
    the mapping is empty, and goes through the three output stages when it
    is not. *)
Definition main (docx_files : list docx_file) : list fs_op :=
  let extractor := [Mkdir (lit "data/clean")] in
  let extracted_texts := process_all_docx_files docx_files in
  if Dict.is_empty extracted_texts then extractor
  else extractor
       ++ save_extracted_texts extracted_texts
       ++ create_combined_dataset extracted_texts
       ++ create_metadata extracted_texts.

End Extractor.
End DocxTextExtractor.

(** ** extract_html_text.py *)

Module HtmlTextExtractor.

(** The tree BeautifulSoup builds: strings and tags with their classes. *)
Inductive node :=
| NavigableString (s : str)
| Tag (name : str) (classes : list str) (contents : list node).

(** A document is the list of its top-level nodes. *)
Definition soup := list node.

Definition has_name (nm : str) (n : node) : bool :=
  match n with
  | NavigableString _ => false
  | Tag nm' _ _ => str_eqb nm' nm
  end.

Definition has_class (cl : str) (n : node) : bool :=
  match n with
  | NavigableString _ => false
  | Tag _ cls _ => existsb (fun c => str_eqb c cl) cls
  end.

(** Everything below a node, in document order. *)
Fixpoint descendants_of (n : node) : list node :=
  match n with
  | NavigableString _ => []
  | Tag _ _ cs => flat_map (fun c => c :: descendants_of c) cs
  end.

Definition descendants (doc : soup) : list node :=
  flat_map (fun c => c :: descendants_of c) doc.

(** [get_text()]: all the strings below, concatenated. *)
Fixpoint get_text (n : node) : str :=
  match n with
  | NavigableString s => s
  | Tag _ _ cs => List.concat (map get_text cs)
  end.

Definition soup_get_text (doc : soup) : str := List.concat (map get_text doc).

(** [for script in soup(["script", "style"]): script.decompose()]. *)
Definition is_script_or_style (n : node) : bool :=
  has_name (lit "script") n || has_name (lit "style") n.

Fixpoint decompose_in (n : node) : node :=
  match n with
  | NavigableString s => NavigableString s
  | Tag nm cls cs =>
      Tag nm cls
        (flat_map (fun c => if is_script_or_style c then []
                            else [decompose_in c]) cs)
  end.

Definition decompose_scripts (doc : soup) : soup :=
  flat_map (fun c => if is_script_or_style c then [] else [decompose_in c]) doc.

(** [soup.find(name)] and [soup.find('div', class_=cl)]: the first match in
    document order;  [tag.find_all(name)]: all of them. *)
Definition find (nm : str) (doc : soup) : option node :=
  List.find (has_name nm) (descendants doc).

Definition find_div_class (cl : str) (doc : soup) : option node :=
  List.find (fun n => has_name (lit "div") n && has_class cl n) (descendants doc).

Definition find_all (nm : str) (n : node) : list node :=
  filter (has_name nm) (descendants_of n).

(** The [<p>] texts of an article: trimmed, the empty ones dropped. *)
Definition article_text_parts (article : node) : list str :=
  fold_left (fun text_parts p =>
               let p_text := Py.strip (get_text p) in
               if truthy p_text then text_parts ++ [p_text] else text_parts)
            (find_all (lit "p") article) [].

(** The text handed to [clean_text]: the [if article: ... else: ...]
    cascade on the tree without its scripts and styles. *)
Definition selected_text (parsed : soup) : str :=
  let doc := decompose_scripts parsed in
  match find (lit "article") doc with
  | Some article => Py.join [10] (article_text_parts article)
  | None =>
      match find_div_class (lit "story-content") doc with
      | Some story_content => get_text story_content
      | None =>
          match find (lit "body") doc with
          | Some body => get_text body
          | None => soup_get_text doc
          end
      end
  end.

(** An HTML file found by [rglob]: its path relative to the input root and
    its parsed tree ([None]: reading or parsing raised). *)
Record html_file := { relative_path : str; parsed : option soup }.

(** [str(relative_path).replace('\\', '_').replace('/', '_')
      .replace('.htm', '').replace('.html', '')]. *)
Definition file_key (relative_path : str) : str :=
  Py.replace (lit ".html") []
    (Py.replace (lit ".htm") []
       (Py.replace [47] [95] (Py.replace [92] [95] relative_path))).

Section Extractor.
Context `{UnicodeData}.

Definition kept (c : char) : bool :=
  Re.word c || Re.space c
  || ((192 <=? c) && (c <=? 7929)) || ((7840 <=? c) && (c <=? 7929))
  || existsb (Z.eqb c) [46; 44; 33; 63; 59; 58; 40; 41; 34; 34; 8230].

Definition clean_text (text : str) : str :=
  let text := Re.sub_class (fun c => negb (kept c)) text in
  let text := Re.sub_space_runs text in
  Py.strip text.

Definition extract_text_from_html (f : html_file) : str :=
  match parsed f with
  | Some doc => clean_text (selected_text doc)
  | None => []
  end.

Definition process_all_html_files (html_files : list html_file) : Dict.t :=
  fold_left
    (fun extracted_texts html_file =>
       let text := extract_text_from_html html_file in
       if truthy text
       then Dict.set extracted_texts (file_key (relative_path html_file)) text
       else extracted_texts)
    html_files [].

Definition save_extracted_texts : Dict.t -> list fs_op :=
  Writer.save_extracted_texts.

Definition create_combined_dataset : Dict.t -> list fs_op :=
  Writer.create_combined_dataset (lit "combined_html_novel_text.txt").

Definition create_metadata : Dict.t -> list fs_op :=
  Writer.create_metadata (lit "html_metadata.csv").

(** [main]: the constructor makes the output directory; the run stops when
    the mapping is empty, and goes through the three output stages when it
    is not. *)
Definition main (html_files : list html_file) : list fs_op :=
  let extractor := [Mkdir (lit "data/clean")] in
  let extracted_texts := process_all_html_files html_files in
  if Dict.is_empty extracted_texts then extractor
  else extractor
       ++ save_extracted_texts extracted_texts
       ++ create_combined_dataset extracted_texts
       ++ create_metadata extracted_texts.

End Extractor.
End HtmlTextExtractor.

(** ** extract_pdf_text.py *)

Module PdfTextExtractor.

(** A PDF file found by [rglob]: its path relative to the input root and
    the text of each page in page order ([None]: the reader raised). *)
Record pdf_file := { relative_path : str; pages : option (list str) }.

(** [str(relative_path).replace('\\', '_').replace('/', '_')
      .replace('.pdf', '')]. *)
Definition file_key (relative_path : str) : str :=
  Py.replace (lit ".pdf") []
    (Py.replace [47] [95] (Py.replace [92] [95] relative_path)).

(** The text before cleaning: the pages that are not blank, untrimmed,
    joined with newlines. *)
Definition joined_pages (page_texts : list str) : str :=
  let full_text :=
    fold_left (fun full_text page_text =>
                 if truthy (Py.strip page_text) then full_text ++ [page_text]
                 else full_text)
              page_texts [] in
  Py.join [10] full_text.

Section Extractor.
Context `{UnicodeData}.

Definition kept (c : char) : bool :=
  Re.word c || Re.space c
  || ((192 <=? c) && (c <=? 7929)) || ((7840 <=? c) && (c <=? 7929))
  || existsb (Z.eqb c) [46; 44; 33; 63; 59; 58; 40; 41; 34; 34; 8230].

Definition clean_text (text : str) : str :=
  let text := Re.sub_class (fun c => negb (kept c)) text in
  let text := Re.sub_space_runs text in
  Py.strip text.

Definition extract_text_from_pdf (f : pdf_file) : str :=
  match pages f with
  | Some page_texts => clean_text (joined_pages page_texts)
  | None => []
  end.

Definition process_all_pdf_files (pdf_files : list pdf_file) : Dict.t :=
  fold_left
    (fun extracted_texts pdf_file =>
       let text := extract_text_from_pdf pdf_file in
       if truthy text
       then Dict.set extracted_texts (file_key (relative_path pdf_file)) text
       else extracted_texts)
    pdf_files [].

Definition save_extracted_texts : Dict.t -> list fs_op :=
  Writer.save_extracted_texts.

Definition create_combined_dataset : Dict.t -> list fs_op :=
  Writer.create_combined_dataset (lit "combined_pdf_novel_text.txt").

Definition create_metadata : Dict.t -> list fs_op :=
  Writer.create_metadata (lit "pdf_metadata.csv").

(** [main]: the constructor makes the output directory; the run stops when
    the mapping is empty, and goes through the three output stages when it
    is not. *)
Definition main (pdf_files : list pdf_file) : list fs_op :=
  let extractor := [Mkdir (lit "data/clean")] in
  let extracted_texts := process_all_pdf_files pdf_files in
  if Dict.is_empty extracted_texts then extractor
  else extractor
       ++ save_extracted_texts extracted_texts
       ++ create_combined_dataset extracted_texts
       ++ create_metadata extracted_texts.

End Extractor.
End PdfTextExtractor.

(** ** Shapes of strings used in the statements *)

Module Shape.

(** No two whitespace characters in a row. *)
Fixpoint single_spaced (s : str) : bool :=
  match s with
  | c1 :: s' =>
      match s' with
      | c2 :: _ => negb (Py.isspace c1 && Py.isspace c2) && single_spaced s'
      | [] => true
      end
  | [] => true
  end.

(** The first character, if any, is not whitespace. *)
Definition starts_nonspace (s : str) : bool :=
  match s with
  | [] => true
  | c :: _ => negb (Py.isspace c)
  end.

(** The only whitespace character that occurs is the space U+0020. *)
Definition only_blank_spaces (s : str) : Prop :=
  Forall (fun c => Py.isspace c = true -> c = 32) s.

(** A string as [clean_text] leaves it, for a set [kept] of characters. *)
Definition normalized (kept : char -> bool) (s : str) : Prop :=
  Forall (fun c => kept c = true) s
  /\ only_blank_spaces s
  /\ single_spaced s = true
  /\ starts_nonspace s = true
  /\ starts_nonspace (rev s) = true.

End Shape.

(** ** The specification's readings *)

(** Definitions that follow the words of the specification, to be compared
    with the functions above. *)
Module Spec.

(** The allowed characters of a cleaned text: word characters, whitespace,
    the two ranges U+00C0..U+1EF9 and U+1EA0..U+1EF9, and the marks
    [. , ! ? ; : ( )], the double quote, the apostrophe and the ellipsis. *)
Definition allowed `{UnicodeData} (c : char) : bool :=
  Re.word c || Re.space c
  || ((192 <=? c) && (c <=? 7929)) || ((7840 <=? c) && (c <=? 7929))
  || existsb (Z.eqb c) [46; 44; 33; 63; 59; 58; 40; 41; 34; 34; 39; 39; 8230].

(** The key of a file found by a recursive scan: the relative path with
    every [/] and [\] replaced by [_], and the format extension stripped
    from the end. *)
Definition flatten_separators (relative_path : str) : str :=
  map (fun c => if (c =? 47) || (c =? 92) then 95 else c) relative_path.

Definition endswith (suffix s : str) : bool :=
  Py.startswith (rev suffix) (rev s).

Definition removesuffix (suffix s : str) : str :=
  if endswith suffix s
  then firstn (List.length s - List.length suffix) s
  else s.

Definition html_key (relative_path : str) : str :=
  let flat := flatten_separators relative_path in
  if endswith (lit ".html") flat then removesuffix (lit ".html") flat
  else removesuffix (lit ".htm") flat.

Definition pdf_key (relative_path : str) : str :=
  removesuffix (lit ".pdf") (flatten_separators relative_path).

(** The number of newline-separated segments of a text. *)
Definition segments (text : str) : nat := List.length (Py.split_on 10 text).

(** A node is the first of the document, in document order, that passes a
    test; no node of the document passes it. *)
Definition first_in_document (doc : HtmlTextExtractor.soup)
  (test : HtmlTextExtractor.node -> bool) (n : HtmlTextExtractor.node) : Prop :=
  exists before after,
    HtmlTextExtractor.descendants doc = before ++ n :: after
    /\ test n = true
    /\ Forall (fun m => test m = false) before.

Definition none_in_document (doc : HtmlTextExtractor.soup)
  (test : HtmlTextExtractor.node -> bool) : Prop :=
  Forall (fun m => test m = false) (HtmlTextExtractor.descendants doc).

Definition is_article : HtmlTextExtractor.node -> bool :=
  HtmlTextExtractor.has_name (lit "article").

Definition is_story_division (n : HtmlTextExtractor.node) : bool :=
  HtmlTextExtractor.has_name (lit "div") n
  && HtmlTextExtractor.has_class (lit "story-content") n.

Definition is_body : HtmlTextExtractor.node -> bool :=
  HtmlTextExtractor.has_name (lit "body").

(** The HTML rule read as a strict fallback chain: each rule is used when
    the rules before it found nothing.  Rule (a) finds the non-empty trimmed
    paragraphs of the article, rule (b) the first element with class
    [story-content], rule (c) the body. *)
Definition find_class (cl : str) (doc : HtmlTextExtractor.soup)
  : option HtmlTextExtractor.node :=
  List.find (HtmlTextExtractor.has_class cl) (HtmlTextExtractor.descendants doc).

Definition rule_a (doc : HtmlTextExtractor.soup) : list str :=
  match HtmlTextExtractor.find (lit "article") doc with
  | Some article => HtmlTextExtractor.article_text_parts article
  | None => []
  end.

Definition strict_fallback_text (parsed : HtmlTextExtractor.soup) : str :=
  let doc := HtmlTextExtractor.decompose_scripts parsed in
  match rule_a doc with
  | _ :: _ => Py.join [10] (rule_a doc)
  | [] =>
      match find_class (lit "story-content") doc with
      | Some e => HtmlTextExtractor.get_text e
      | None =>
          match HtmlTextExtractor.find (lit "body") doc with
          | Some body => HtmlTextExtractor.get_text body
          | None => HtmlTextExtractor.soup_get_text doc
          end
      end
  end.

End Spec.

(** ** Sample inputs *)

Module Sample.

(** A Unicode database that declares nothing above ASCII alphanumeric.  The
    sample inputs are ASCII, where [\w] does not consult the database. *)
Definition ascii_db : UnicodeData := {| unicode_isalnum := fun _ => false |}.

(** An article without paragraphs next to a story-content division. *)
Definition article_without_paragraphs : HtmlTextExtractor.soup :=
  [HtmlTextExtractor.Tag (lit "html") []
     [HtmlTextExtractor.Tag (lit "body") []
        [HtmlTextExtractor.Tag (lit "article") []
           [HtmlTextExtractor.Tag (lit "h1") []
              [HtmlTextExtractor.NavigableString (lit "Title")]];
         HtmlTextExtractor.Tag (lit "div") [lit "story-content"]
           [HtmlTextExtractor.NavigableString (lit "Once upon a time")]]]].

(** A story-content division and no article. *)
Definition story_division : HtmlTextExtractor.soup :=
  [HtmlTextExtractor.Tag (lit "html") []
     [HtmlTextExtractor.Tag (lit "head") []
        [HtmlTextExtractor.Tag (lit "style") []
           [HtmlTextExtractor.NavigableString (lit "p { }")]];
      HtmlTextExtractor.Tag (lit "body") []
        [HtmlTextExtractor.Tag (lit "div") [lit "story-content"]
           [HtmlTextExtractor.NavigableString (lit "Once upon a time")]]]].

(** The file [chapter1.html] at the input root, holding that document. *)
Definition chapter1 : HtmlTextExtractor.html_file :=
  {| HtmlTextExtractor.relative_path := lit "chapter1.html";
     HtmlTextExtractor.parsed := Some story_division |}.

(** A document of two paragraphs. *)
Definition two_paragraphs : DocxTextExtractor.docx_file :=
  {| DocxTextExtractor.stem := lit "novel";
     DocxTextExtractor.paragraphs := Some [lit "a"; lit "b"] |}.

(** Two files that clean to the empty string and one that cleans to
    [Hello world]. *)
Definition unreadable : DocxTextExtractor.docx_file :=
  {| DocxTextExtractor.stem := lit "broken";
     DocxTextExtractor.paragraphs := None |}.

Definition symbols_only : DocxTextExtractor.docx_file :=
  {| DocxTextExtractor.stem := lit "symbols";
     DocxTextExtractor.paragraphs := Some [lit "<>"; lit " * "] |}.

Definition hello : DocxTextExtractor.docx_file :=
  {| DocxTextExtractor.stem := lit "hello";
     DocxTextExtractor.paragraphs := Some [lit " Hello"; lit ""; lit "world "] |}.

End Sample.

(** ** The summary logged with the table *)

(** [total_files], [total_chars] and [total_words] as [create_metadata]
    computes them from the columns of the table.  The two means are
    formatted floating-point numbers and are left out. *)
Module Summary.

Definition total_files (rows : list metadata_row) : nat := List.length rows.

Definition total_chars (rows : list metadata_row) : nat :=
  list_sum (map character_count rows).

Definition total_words (rows : list metadata_row) : nat :=
  list_sum (map word_count rows).

End Summary.

(** The file a filesystem operation writes, if it writes one. *)
Definition written_name (op : fs_op) : option str :=
  match op with
  | Mkdir _ => None
  | WriteText name _ => Some name
  | WriteCsv name _ => Some name
  end.

Definition written_names (ops : list fs_op) : list str :=
  flat_map (fun op => match written_name op with
                      | Some name => [name]
                      | None => []
                      end) ops.

(** ** More sample inputs *)

Module Corpus.

(** An article of three paragraphs, the second blank, with a script inside
    and a story-content division beside it. *)
Definition article_with_paragraphs : HtmlTextExtractor.soup :=
  [HtmlTextExtractor.Tag (lit "html") []
     [HtmlTextExtractor.Tag (lit "body") []
        [HtmlTextExtractor.Tag (lit "article") []
           [HtmlTextExtractor.Tag (lit "p") []
              [HtmlTextExtractor.NavigableString (lit " First  one ")];
            HtmlTextExtractor.Tag (lit "p") []
              [HtmlTextExtractor.NavigableString (lit "  ")];
            HtmlTextExtractor.Tag (lit "script") []
              [HtmlTextExtractor.NavigableString (lit "var x;")];
            HtmlTextExtractor.Tag (lit "p") []
              [HtmlTextExtractor.NavigableString (lit "Second")]];
         HtmlTextExtractor.Tag (lit "div") [lit "story-content"]
           [HtmlTextExtractor.NavigableString (lit "Elsewhere")]]]].

(** The article of that document. *)
Definition the_article : HtmlTextExtractor.node :=
  HtmlTextExtractor.Tag (lit "article") []
    [HtmlTextExtractor.Tag (lit "p") []
       [HtmlTextExtractor.NavigableString (lit " First  one ")];
     HtmlTextExtractor.Tag (lit "p") []
       [HtmlTextExtractor.NavigableString (lit "  ")];
     HtmlTextExtractor.Tag (lit "p") []
       [HtmlTextExtractor.NavigableString (lit "Second")]].

(** Two HTML files whose relative paths flatten to the same key. *)
Definition nested : HtmlTextExtractor.html_file :=
  {| HtmlTextExtractor.relative_path := lit "a/b.htm";
     HtmlTextExtractor.parsed := Some Sample.story_division |}.

Definition flat : HtmlTextExtractor.html_file :=
  {| HtmlTextExtractor.relative_path := lit "a_b.htm";
     HtmlTextExtractor.parsed := Some article_with_paragraphs |}.

(** Two PDF files, the second without text. *)
Definition report : PdfTextExtractor.pdf_file :=
  {| PdfTextExtractor.relative_path := lit "2024/report.pdf";
     PdfTextExtractor.pages := Some [lit "Page one "; lit " "; lit "two"] |}.

Definition scanned : PdfTextExtractor.pdf_file :=
  {| PdfTextExtractor.relative_path := lit "scanned.pdf";
     PdfTextExtractor.pages := Some [lit " "; lit ""] |}.

(** Two documents of one directory with the same stem: the files [.docx]
    (not a readable document) and [.docx.docx], both matched by [*.docx],
    both of stem [.docx]. *)
Definition dot_docx : DocxTextExtractor.docx_file :=
  {| DocxTextExtractor.stem := lit ".docx";
     DocxTextExtractor.paragraphs := None |}.

Definition dot_docx_docx : DocxTextExtractor.docx_file :=
  {| DocxTextExtractor.stem := lit ".docx";
     DocxTextExtractor.paragraphs := Some [lit "Hello world"] |}.

End Corpus.

(** * Verification *)

(** ** Facts about the string primitives *)

Section StringFacts.

Lemma str_eqb_eq (a b : str) : str_eqb a b = true <-> a = b.
Proof.
  unfold str_eqb. destruct (list_eq_dec Z.eq_dec a b); split; congruence.
Qed.

Lemma str_eqb_refl (a : str) : str_eqb a a = true.
Proof. now apply str_eqb_eq. Qed.

Lemma str_eqb_neq (a b : str) : str_eqb a b = false <-> a <> b.
Proof.
  unfold str_eqb. destruct (list_eq_dec Z.eq_dec a b); split; congruence.
Qed.

Lemma truthy_false (s : str) : truthy s = false <-> s = [].
Proof. destruct s; simpl; split; congruence. Qed.

Lemma truthy_true (s : str) : truthy s = true <-> s <> [].
Proof. destruct s; simpl; split; congruence. Qed.

(** A loop that appends the elements passing a test is [filter]. *)
Lemma fold_append_filter {A B} (keep : A -> bool) (f : A -> B) (l : list A) (acc : list B) :
  fold_left (fun acc x => if keep x then acc ++ [f x] else acc) l acc
  = acc ++ map f (filter keep l).
Proof.
  revert acc. induction l as [|x l IH]; intros acc; simpl.
  - now rewrite app_nil_r.
  - rewrite IH. destruct (keep x); simpl; [now rewrite <- app_assoc|reflexivity].
Qed.

Lemma fold_append_map {A B} (f : A -> B) (l : list A) (acc : list B) :
  fold_left (fun acc x => acc ++ [f x]) l acc = acc ++ map f l.
Proof.
  revert acc. induction l as [|x l IH]; intros acc; simpl.
  - now rewrite app_nil_r.
  - rewrite IH. now rewrite <- app_assoc.
Qed.

Lemma lstrip_suffix (s : str) :
  exists pre, s = pre ++ Py.lstrip s /\ forallb Py.isspace pre = true.
Proof.
  induction s as [|c s IH]; simpl.
  - now exists [].
  - destruct (Py.isspace c) eqn:E.
    + destruct IH as [pre [E1 E2]]. exists (c :: pre). simpl.
      rewrite E, E2. split; [now f_equal|reflexivity].
    + now exists [].
Qed.

Lemma rstrip_prefix (s : str) :
  exists suf, s = Py.rstrip s ++ suf /\ forallb Py.isspace suf = true.
Proof.
  unfold Py.rstrip. destruct (lstrip_suffix (rev s)) as [pre [E1 E2]].
  exists (rev pre). split.
  - rewrite <- rev_app_distr, <- E1. now rewrite rev_involutive.
  - rewrite forallb_forall in *. intros x Hx. apply E2. now apply in_rev.
Qed.

Lemma lstrip_starts_nonspace (s : str) :
  Shape.starts_nonspace (Py.lstrip s) = true.
Proof.
  induction s as [|c s IH]; simpl; [reflexivity|].
  destruct (Py.isspace c) eqn:E; [exact IH|]. simpl. now rewrite E.
Qed.

Lemma lstrip_id (s : str) :
  Shape.starts_nonspace s = true -> Py.lstrip s = s.
Proof.
  destruct s as [|c s]; simpl; [reflexivity|].
  destruct (Py.isspace c); [discriminate|reflexivity].
Qed.

Lemma rstrip_id (s : str) :
  Shape.starts_nonspace (rev s) = true -> Py.rstrip s = s.
Proof.
  intros Hs. unfold Py.rstrip. rewrite lstrip_id by exact Hs.
  apply rev_involutive.
Qed.

Lemma lstrip_all_space (s : str) :
  forallb Py.isspace s = true -> Py.lstrip s = [].
Proof.
  induction s as [|c s IH]; simpl; [reflexivity|].
  destruct (Py.isspace c); simpl; [exact IH|discriminate].
Qed.

Lemma strip_all_space (s : str) :
  forallb Py.isspace s = true -> Py.strip s = [].
Proof.
  intros Hs. unfold Py.strip. now rewrite lstrip_all_space.
Qed.

Lemma starts_nonspace_prefix (a b : str) :
  Shape.starts_nonspace (a ++ b) = true -> Shape.starts_nonspace a = true.
Proof. destruct a; simpl; auto. Qed.

Lemma single_spaced_tail (c : char) (s : str) :
  Shape.single_spaced (c :: s) = true -> Shape.single_spaced s = true.
Proof.
  destruct s as [|c2 s]; [reflexivity|].
  change (Shape.single_spaced (c :: c2 :: s))
    with (negb (Py.isspace c && Py.isspace c2) && Shape.single_spaced (c2 :: s)).
  now intros [_ H]%andb_prop.
Qed.

Lemma single_spaced_app_r (a b : str) :
  Shape.single_spaced (a ++ b) = true -> Shape.single_spaced b = true.
Proof.
  induction a as [|c a IH]; simpl app; [auto|].
  intros Hs. apply IH. now apply single_spaced_tail in Hs.
Qed.

Lemma single_spaced_app_l (a b : str) :
  Shape.single_spaced (a ++ b) = true -> Shape.single_spaced a = true.
Proof.
  induction a as [|c a IH]; [reflexivity|].
  destruct a as [|c2 a]; [reflexivity|].
  change (Shape.single_spaced ((c :: c2 :: a) ++ b))
    with (negb (Py.isspace c && Py.isspace c2) && Shape.single_spaced ((c2 :: a) ++ b)).
  change (Shape.single_spaced (c :: c2 :: a))
    with (negb (Py.isspace c && Py.isspace c2) && Shape.single_spaced (c2 :: a)).
  intros [H1 H2]%andb_prop. rewrite H1. simpl. now apply IH.
Qed.

(** What [single_spaced] says, read on the positions of the string. *)
Lemma single_spaced_spec (s : str) :
  Shape.single_spaced s = true <->
  forall pre a b post, s = pre ++ a :: b :: post ->
                       Py.isspace a && Py.isspace b = false.
Proof.
  split.
  - intros Hs pre a b post ->.
    apply single_spaced_app_r in Hs.
    change (negb (Py.isspace a && Py.isspace b)
            && Shape.single_spaced (b :: post) = true) in Hs.
    apply andb_prop in Hs as [Hs _]. now apply negb_true_iff in Hs.
  - induction s as [|c s IH]; intros Hs; [reflexivity|].
    destruct s as [|c2 s]; [reflexivity|].
    change (negb (Py.isspace c && Py.isspace c2)
            && Shape.single_spaced (c2 :: s) = true).
    apply andb_true_intro. split.
    + apply negb_true_iff. now apply (Hs [] c c2 s).
    + apply IH. intros pre a b post E.
      apply (Hs (c :: pre) a b post). simpl. now f_equal.
Qed.

End StringFacts.

(** ** The cleaning function *)

Section CleanText.
Context `{UnicodeData}.

Import DocxTextExtractor.

Lemma kept_space (c : char) : Py.isspace c = true -> kept c = true.
Proof.
  intros Hc. unfold kept, Re.space. rewrite Hc.
  now rewrite orb_true_r.
Qed.

Lemma kept_blank : kept 32 = true.
Proof. now apply kept_space. Qed.

(** The first substitution leaves kept characters only. *)
Lemma sub_class_kept (text : str) :
  Forall (fun c => kept c = true) (Re.sub_class (fun c => negb (kept c)) text).
Proof.
  unfold Re.sub_class. apply Forall_forall. intros c Hc.
  apply in_map_iff in Hc as [c0 [E _]].
  destruct (kept c0) eqn:K; simpl in E; subst c; [exact K|exact kept_blank].
Qed.

Lemma sub_class_id (text : str) :
  Forall (fun c => kept c = true) text ->
  Re.sub_class (fun c => negb (kept c)) text = text.
Proof.
  unfold Re.sub_class. induction 1 as [|c t Hc _ IH]; simpl; [reflexivity|].
  now rewrite Hc, IH.
Qed.

(** The second substitution: what it emits is kept, its whitespace is the
    space alone and never twice in a row, and inside a run it does not start
    with whitespace. *)
Lemma sub_space_runs_aux_kept (text : str) (in_run : bool) :
  Forall (fun c => kept c = true) text ->
  Forall (fun c => kept c = true) (Re.sub_space_runs_aux in_run text).
Proof.
  intros Ht. revert in_run.
  induction Ht as [|c t Hc _ IH]; intros in_run; simpl; [constructor|].
  destruct (Re.space c), in_run; auto using kept_blank.
Qed.

Lemma sub_space_runs_aux_shape (text : str) (in_run : bool) :
  Shape.only_blank_spaces (Re.sub_space_runs_aux in_run text)
  /\ Shape.single_spaced (Re.sub_space_runs_aux in_run text) = true
  /\ (in_run = true ->
      Shape.starts_nonspace (Re.sub_space_runs_aux in_run text) = true).
Proof.
  revert in_run. induction text as [|c t IH]; intros in_run.
  - simpl. repeat split; constructor.
  - simpl. unfold Re.space. destruct (Py.isspace c) eqn:Ec.
    + destruct in_run.
      * apply IH.
      * destruct (IH true) as [B [S N]]. specialize (N eq_refl).
        split; [|split; [|discriminate]].
        -- constructor; [reflexivity|exact B].
        -- destruct (Re.sub_space_runs_aux true t) as [|c2 r] eqn:Er;
             [reflexivity|].
           change (negb (Py.isspace 32 && Py.isspace c2)
                   && Shape.single_spaced (c2 :: r) = true).
           simpl in N. apply negb_true_iff in N. rewrite N, S.
           reflexivity.
    + destruct (IH false) as [B [S _]].
      split; [|split].
      * constructor; [congruence|exact B].
      * destruct (Re.sub_space_runs_aux false t) as [|c2 r] eqn:Er;
          [reflexivity|].
        change (negb (Py.isspace c && Py.isspace c2)
                && Shape.single_spaced (c2 :: r) = true).
        now rewrite Ec, S.
      * intros _. simpl. now rewrite Ec.
Qed.

Lemma sub_space_runs_aux_id (text : str) (in_run : bool) :
  Shape.only_blank_spaces text ->
  Shape.single_spaced text = true ->
  (in_run = true -> Shape.starts_nonspace text = true) ->
  Re.sub_space_runs_aux in_run text = text.
Proof.
  intros B. revert in_run.
  induction B as [|c t Bc _ IH]; intros in_run S N; simpl; [reflexivity|].
  unfold Re.space. destruct (Py.isspace c) eqn:Ec.
  - destruct in_run.
    + specialize (N eq_refl). simpl in N. now rewrite Ec in N.
    + rewrite (Bc eq_refl). f_equal. apply IH.
      * now apply single_spaced_tail in S.
      * intros _. destruct t as [|c2 r]; [reflexivity|].
        change (negb (Py.isspace c && Py.isspace c2)
                && Shape.single_spaced (c2 :: r) = true) in S.
        apply andb_prop in S as [S _]. rewrite Ec in S. simpl in S.
        exact S.
  - f_equal. apply IH; [now apply single_spaced_tail in S|discriminate].
Qed.

(** [strip] keeps a stretch of the string, and the stretch has no
    whitespace at either end. *)
Lemma strip_stretch (s : str) :
  exists pre suf, s = pre ++ Py.strip s ++ suf.
Proof.
  destruct (lstrip_suffix s) as [pre [E1 _]].
  destruct (rstrip_prefix (Py.lstrip s)) as [suf [E2 _]].
  exists pre, suf. unfold Py.strip. now rewrite <- E2.
Qed.

Lemma strip_starts_nonspace (s : str) :
  Shape.starts_nonspace (Py.strip s) = true.
Proof.
  destruct (rstrip_prefix (Py.lstrip s)) as [suf [E _]].
  apply (starts_nonspace_prefix _ suf). fold (Py.strip s) in E.
  rewrite <- E. apply lstrip_starts_nonspace.
Qed.

Lemma strip_ends_nonspace (s : str) :
  Shape.starts_nonspace (rev (Py.strip s)) = true.
Proof.
  unfold Py.strip, Py.rstrip. rewrite rev_involutive.
  apply lstrip_starts_nonspace.
Qed.

Lemma strip_id (s : str) :
  Shape.starts_nonspace s = true ->
  Shape.starts_nonspace (rev s) = true ->
  Py.strip s = s.
Proof.
  intros H1 H2. unfold Py.strip. rewrite (lstrip_id s H1).
  now apply rstrip_id.
Qed.

(** The output of [clean_text] is normalized, and [clean_text] leaves a
    normalized string as it is. *)
Lemma clean_text_normalized (text : str) :
  Shape.normalized kept (clean_text text).
Proof.
  unfold clean_text, Re.sub_space_runs.
  set (t1 := Re.sub_class _ text).
  pose proof (sub_space_runs_aux_kept t1 false (sub_class_kept text)) as K.
  destruct (sub_space_runs_aux_shape t1 false) as [B [S _]].
  set (t2 := Re.sub_space_runs_aux false t1) in *.
  destruct (strip_stretch t2) as [pre [suf E]].
  rewrite E in K, B, S.
  unfold Shape.only_blank_spaces in *.
  apply Forall_app in K as [_ K]. apply Forall_app in K as [K _].
  apply Forall_app in B as [_ B]. apply Forall_app in B as [B _].
  apply single_spaced_app_r, single_spaced_app_l in S.
  repeat split; auto using strip_starts_nonspace, strip_ends_nonspace.
Qed.

Lemma clean_text_fixed (s : str) :
  Shape.normalized kept s -> clean_text s = s.
Proof.
  intros [K [B [S [N1 N2]]]]. unfold clean_text, Re.sub_space_runs.
  rewrite (sub_class_id s K).
  rewrite (sub_space_runs_aux_id s false B S) by discriminate.
  now apply strip_id.
Qed.

End CleanText.

Section CleanTextClaims.
Context `{UnicodeData}.

Lemma kept_allowed (c : char) :
  DocxTextExtractor.kept c = true -> Spec.allowed c = true.
Proof.
  unfold DocxTextExtractor.kept, Spec.allowed.
  intros K. apply orb_true_iff in K as [K|K].
  - now rewrite K.
  - apply orb_true_iff. right.
    apply existsb_exists in K as [x [Hin Hx]].
    apply existsb_exists. exists x. split; [|exact Hx].
    simpl in *. tauto.
Qed.

(** C2: for every input string, cleaning a cleaned text gives the cleaned
    text back: [clean_text (clean_text T) = clean_text T]. *)
Theorem clean_text_idempotent (T : str) :
  DocxTextExtractor.clean_text (DocxTextExtractor.clean_text T)
  = DocxTextExtractor.clean_text T.
Proof.
  apply clean_text_fixed, clean_text_normalized.
Qed.

(** C5: for every input string, the cleaned text has allowed characters
    only, never two whitespace characters in a row, and no whitespace at
    its start or at its end. *)
Theorem clean_text_output_shape (T : str) :
  Forall (fun c => Spec.allowed c = true) (DocxTextExtractor.clean_text T)
  /\ (forall pre a b post,
         DocxTextExtractor.clean_text T = pre ++ a :: b :: post ->
         Py.isspace a && Py.isspace b = false)
  /\ (forall c rest,
         DocxTextExtractor.clean_text T = c :: rest -> Py.isspace c = false)
  /\ (forall pre c,
         DocxTextExtractor.clean_text T = pre ++ [c] -> Py.isspace c = false).
Proof.
  destruct (clean_text_normalized T) as [K [_ [S [N1 N2]]]].
  split; [|split; [|split]].
  - eapply Forall_impl; [|exact K]. exact kept_allowed.
  - now apply single_spaced_spec.
  - intros c rest E. rewrite E in N1. simpl in N1.
    now apply negb_true_iff.
  - intros pre c E. rewrite E, rev_app_distr in N2. simpl in N2.
    now apply negb_true_iff.
Qed.

(** A cleaned text holds no newline. *)
Lemma clean_text_no_newline (T : str) :
  ~ In 10 (DocxTextExtractor.clean_text T).
Proof.
  destruct (clean_text_normalized T) as [_ [B _]].
  intros Hin. unfold Shape.only_blank_spaces in B.
  rewrite Forall_forall in B. specialize (B 10 Hin eq_refl). discriminate.
Qed.

(** C10: the cleaning functions of the three scripts return the same text
    on every input. *)
Theorem clean_text_same_in_all_scripts (T : str) :
  DocxTextExtractor.clean_text T = HtmlTextExtractor.clean_text T
  /\ HtmlTextExtractor.clean_text T = PdfTextExtractor.clean_text T.
Proof.
  split.
  - unfold DocxTextExtractor.clean_text, HtmlTextExtractor.clean_text.
    f_equal.
  - unfold HtmlTextExtractor.clean_text, PdfTextExtractor.clean_text.
    f_equal.
Qed.

End CleanTextClaims.

(** The shape of a cleaned text, read on [  Hello,   world's  ]: the text
    is [Hello, world s], and the characters around its first gap are a
    space and a letter. *)
Lemma clean_text_output_shape_sample :
  @DocxTextExtractor.clean_text Sample.ascii_db (lit "  Hello,   world's  ")
  = lit "Hello, world s"
  /\ Py.isspace 32 && Py.isspace 119 = false.
Proof.
  split; [reflexivity|].
  apply (proj1 (proj2 (@clean_text_output_shape Sample.ascii_db
                         (lit "  Hello,   world's  ")))
           (lit "Hello,") 32 119 (lit "orld s")).
  reflexivity.
Defined.

(** ** The result mapping *)

Section DictFacts.

Lemma set_fresh (d : Dict.t) (k v : str) :
  ~ In k (Dict.keys d) -> Dict.set d k v = d ++ [(k, v)].
Proof.
  induction d as [|[k' v'] d IH]; simpl; intros Hk; [reflexivity|].
  destruct (str_eqb k' k) eqn:E.
  - apply str_eqb_eq in E. tauto.
  - f_equal. apply IH. tauto.
Qed.

Lemma set_values (Q : str -> Prop) (d : Dict.t) (k v : str) :
  Forall (fun kv => Q (snd kv)) d -> Q v ->
  Forall (fun kv => Q (snd kv)) (Dict.set d k v).
Proof.
  intros Hd Hv. induction Hd as [|[k' v'] d Hkv Hd IH]; simpl.
  - now repeat constructor.
  - destruct (str_eqb k' k); constructor; auto.
Qed.

Lemma set_keys_nodup (d : Dict.t) (k v : str) :
  NoDup (Dict.keys d) -> NoDup (Dict.keys (Dict.set d k v)).
Proof.
  intros Hd. destruct (in_dec (list_eq_dec Z.eq_dec) k (Dict.keys d)) as [Hin|Hout].
  - replace (Dict.keys (Dict.set d k v)) with (Dict.keys d); [exact Hd|].
    clear Hd. induction d as [|[k' v'] d IH]; simpl in *; [tauto|].
    destruct (str_eqb k' k) eqn:E; simpl; [reflexivity|].
    f_equal. apply IH. apply str_eqb_neq in E. tauto.
  - rewrite (set_fresh d k v Hout). unfold Dict.keys. rewrite map_app. simpl.
    apply NoDup_app; [exact Hd|repeat constructor; simpl; tauto|].
    intros a Ha [<-|[]]. exact (Hout Ha).
Qed.

Lemma get_in (d : Dict.t) (k v : str) :
  NoDup (Dict.keys d) -> In (k, v) d -> Dict.get d k = Some v.
Proof.
  induction d as [|[k' v'] d IH]; simpl; intros Hd Hin; [tauto|].
  inversion Hd as [|? ? Hk Hd']; subst.
  destruct Hin as [E|Hin].
  - inversion E; subst. now rewrite str_eqb_refl.
  - destruct (str_eqb k' k) eqn:E.
    + apply str_eqb_eq in E. subst k'. exfalso. apply Hk.
      apply (in_map fst) in Hin. exact Hin.
    + now apply IH.
Qed.

End DictFacts.

(** ** The batch runner and the output writer *)

Section BatchRunner.
Context `{UnicodeData}.

Import DocxTextExtractor.

(** Names the body of the loop of [process_all_docx_files]. *)
Ltac name_loop_body step :=
  unfold process_all_docx_files;
  match goal with |- context [fold_left ?body _ _] => set (step := body) end.

Lemma extract_text_no_newline (f : docx_file) :
  ~ In 10 (extract_text_from_docx f).
Proof.
  unfold extract_text_from_docx. destruct (paragraphs f).
  - apply clean_text_no_newline.
  - simpl. tauto.
Qed.

(** Whatever the stems, every stored value is the text extracted from one
    of the files, it is not empty, and no key occurs twice. *)
Lemma process_all_values (Q : str -> Prop) (docx_files : list docx_file) :
  (forall f, In f docx_files -> extract_text_from_docx f <> [] ->
             Q (extract_text_from_docx f)) ->
  Forall (fun kv => Q (snd kv)) (process_all_docx_files docx_files).
Proof.
  name_loop_body step.
  assert (G : forall acc, Forall (fun kv => Q (snd kv)) acc ->
              (forall f, In f docx_files -> extract_text_from_docx f <> [] ->
                         Q (extract_text_from_docx f)) ->
              Forall (fun kv => Q (snd kv)) (fold_left step docx_files acc)).
  { induction docx_files as [|f l IH]; intros acc Hacc HQ; simpl; [exact Hacc|].
    apply IH; [|intros; apply HQ; simpl; auto].
    unfold step. cbv beta zeta. destruct (truthy (extract_text_from_docx f)) eqn:E; [|exact Hacc].
    apply set_values; [exact Hacc|].
    apply HQ; [simpl; auto|]. now apply truthy_true. }
  intros HQ. apply G; [constructor|exact HQ].
Qed.

Lemma process_all_keys_nodup (docx_files : list docx_file) :
  NoDup (Dict.keys (process_all_docx_files docx_files)).
Proof.
  name_loop_body step.
  assert (G : forall acc, NoDup (Dict.keys acc) ->
              NoDup (Dict.keys (fold_left step docx_files acc))).
  { induction docx_files as [|f l IH]; intros acc Hacc; simpl; [exact Hacc|].
    apply IH. unfold step. cbv beta zeta.
    destruct (truthy (extract_text_from_docx f)); [|exact Hacc].
    now apply set_keys_nodup. }
  apply G. constructor.
Qed.

(** With distinct stems, as the files of one directory have, the mapping
    lists the files with a non-empty text, in the order of discovery. *)
Lemma process_all_distinct_stems (docx_files : list docx_file) :
  NoDup (map stem docx_files) ->
  process_all_docx_files docx_files
  = map (fun f => (stem f, extract_text_from_docx f))
        (filter (fun f => truthy (extract_text_from_docx f)) docx_files).
Proof.
  name_loop_body step.
  assert (G : forall acc,
              NoDup (map stem docx_files) ->
              (forall f, In f docx_files -> ~ In (stem f) (Dict.keys acc)) ->
              fold_left step docx_files acc
              = acc ++ map (fun f => (stem f, extract_text_from_docx f))
                       (filter (fun f => truthy (extract_text_from_docx f))
                               docx_files)).
  { induction docx_files as [|f l IH]; intros acc Hnd Hacc; simpl.
    - now rewrite app_nil_r.
    - inversion Hnd as [|? ? Hf Hl]; subst.
      unfold step at 2. cbv beta zeta.
      destruct (truthy (extract_text_from_docx f)) eqn:E.
      + rewrite (set_fresh acc (stem f)) by (apply Hacc; simpl; auto).
        rewrite IH; [simpl; now rewrite <- app_assoc|exact Hl|].
        intros g Hg. unfold Dict.keys. rewrite map_app, in_app_iff.
        simpl. intros [Hin|[E'|[]]].
        * apply (Hacc g); simpl; auto.
        * apply Hf. rewrite E'. now apply in_map.
      + apply IH; [exact Hl|]. intros g Hg. apply Hacc. simpl; auto. }
  intros Hnd. rewrite G; [reflexivity|exact Hnd|]. simpl. tauto.
Qed.

Lemma filter_all_empty (l : list docx_file) :
  Forall (fun f => extract_text_from_docx f = []) l ->
  filter (fun f => truthy (extract_text_from_docx f)) l = [].
Proof.
  induction 1 as [|f l Hf _ IH]; simpl; [reflexivity|].
  now rewrite Hf.
Qed.

Lemma stem_injective (l : list docx_file) (f g : docx_file) :
  NoDup (map stem l) -> In f l -> In g l -> stem f = stem g -> f = g.
Proof.
  induction l as [|x l IH]; simpl; intros Hnd Hf Hg E; [tauto|].
  inversion Hnd as [|? ? Hx Hl]; subst.
  destruct Hf as [->|Hf], Hg as [->|Hg]; auto.
  - exfalso. apply Hx. rewrite E. now apply in_map.
  - exfalso. apply Hx. rewrite <- E. now apply in_map.
Qed.

Lemma split_on_aux_no_sep (sep : char) (cur s : str) :
  ~ In sep s -> Py.split_on_aux sep cur s = [rev cur ++ s].
Proof.
  revert cur. induction s as [|c s IH]; intros cur Hs; simpl.
  - now rewrite app_nil_r.
  - destruct (c =? sep) eqn:E.
    + apply Z.eqb_eq in E. simpl in Hs. tauto.
    + rewrite IH by (simpl in Hs; tauto). simpl. now rewrite <- app_assoc.
Qed.

Lemma split_on_no_sep (sep : char) (s : str) :
  ~ In sep s -> Py.split_on sep s = [s].
Proof. apply split_on_aux_no_sep. Qed.

(** The rows of the table, one per entry and in the order of the mapping. *)
Lemma metadata_rows (extracted_texts : Dict.t) :
  Writer.metadata extracted_texts
  = map (fun kv =>
           {| filename := fst kv;
              character_count := List.length (snd kv);
              word_count := List.length (Py.split (snd kv));
              line_count := List.length (Py.split_on 10 (snd kv)) |})
        extracted_texts.
Proof.
  unfold Writer.metadata.
  exact (fold_append_map _ extracted_texts []).
Qed.

(** The table of every batch: one row per entry of the result mapping, in
    its order; [character_count] and [word_count] are the length and the
    number of whitespace-separated words of the cleaned text, and
    [line_count], counted on the cleaned text as well, comes out as 1 in
    every row, whatever the number of lines of the document. *)
Theorem metadata_counts_cleaned_text (docx_files : list docx_file) :
  create_metadata (process_all_docx_files docx_files)
  = [WriteCsv (lit "metadata.csv")
       (map (fun kv =>
               {| filename := fst kv;
                  character_count := List.length (snd kv);
                  word_count := List.length (Py.split (snd kv));
                  line_count := 1 |})
            (process_all_docx_files docx_files))]
  /\ Forall (fun kv => exists f, In f docx_files
                                 /\ snd kv = extract_text_from_docx f)
            (process_all_docx_files docx_files).
Proof.
  split.
  - unfold create_metadata, Writer.create_metadata. do 2 f_equal.
    rewrite metadata_rows. apply map_ext_in. intros kv Hkv.
    assert (N : ~ In 10 (snd kv)).
    { pose proof (process_all_values (fun v => ~ In 10 v) docx_files) as P.
      rewrite Forall_forall in P. apply P; [|exact Hkv].
      intros f _ _. apply extract_text_no_newline. }
    now rewrite (split_on_no_sep 10 (snd kv) N).
  - apply (process_all_values
             (fun v => exists f, In f docx_files /\ v = extract_text_from_docx f)).
    intros f Hf _. now exists f.
Qed.

(** C9: when the batch yields an empty result mapping, the run makes its
    output directory and stops: nothing is written. *)
Theorem empty_batch_writes_nothing (docx_files : list docx_file) :
  process_all_docx_files docx_files = [] ->
  main docx_files = [Mkdir (lit "data/clean")]
  /\ filter is_write (main docx_files) = [].
Proof.
  intros E. unfold main. rewrite E. split; reflexivity.
Qed.

(** The other direction: a run with results goes through the three output
    stages, in their order. *)
Lemma nonempty_batch_writes_all (docx_files : list docx_file) :
  process_all_docx_files docx_files <> [] ->
  main docx_files
  = Mkdir (lit "data/clean")
    :: save_extracted_texts (process_all_docx_files docx_files)
    ++ create_combined_dataset (process_all_docx_files docx_files)
    ++ create_metadata (process_all_docx_files docx_files).
Proof.
  intros Hne. unfold main.
  destruct (process_all_docx_files docx_files); [congruence|reflexivity].
Qed.

End BatchRunner.

(** C4 is missed by the code: a document of the two paragraphs [a] and [b]
    is extracted as two newline-separated segments, the line count the
    claim gives it, but [create_metadata] splits the text on newlines after
    [clean_text] has turned them into spaces, and its row has a line count
    of 1. *)
Lemma line_count_is_not_segment_count :
  Spec.segments (DocxTextExtractor.joined_paragraphs [lit "a"; lit "b"]) = 2%nat
  /\ (forall U : UnicodeData,
         DocxTextExtractor.create_metadata
           (@DocxTextExtractor.process_all_docx_files U [Sample.two_paragraphs])
         = [WriteCsv (lit "metadata.csv")
              [{| filename := lit "novel"; character_count := 3;
                  word_count := 2; line_count := 1 |}]]).
Proof.
  split; [reflexivity|]. intros U. reflexivity.
Qed.

(** A batch of two files that clean to the empty string. *)
Lemma empty_batch_writes_nothing_sample :
  @DocxTextExtractor.main Sample.ascii_db [Sample.unreadable; Sample.symbols_only]
  = [Mkdir (lit "data/clean")]
  /\ filter is_write
       (@DocxTextExtractor.main Sample.ascii_db
          [Sample.unreadable; Sample.symbols_only]) = [].
Proof.
  apply (@empty_batch_writes_nothing Sample.ascii_db). reflexivity.
Defined.

(** ** The combined corpus *)

Section Combined.

Lemma combined_text_blocks (extracted_texts : Dict.t) :
  Writer.combined_text extracted_texts
  = Py.join [10] (map (fun kv => Writer.block (fst kv) (snd kv)) extracted_texts).
Proof.
  unfold Writer.combined_text.
  now rewrite (fold_append_map (fun kv => Writer.block (fst kv) (snd kv))
                 extracted_texts []).
Qed.

(** C7: the combined file holds the blocks of the entries in the mapping's
    order, each the line [=== key ===] and the text, each ended by a
    newline, and joined with one more newline; for the keys [a] then [b]
    with the texts [X] and [Y] that is [=== a ===], newline, [X], newline,
    an empty line, [=== b ===], newline, [Y], newline. *)
Theorem combined_dataset_content (combined_name : str) (extracted_texts : Dict.t) :
  Writer.create_combined_dataset combined_name extracted_texts
  = [WriteText combined_name
       (Py.join [10]
          (map (fun kv => lit "=== " ++ fst kv ++ lit " ===" ++ [10]
                          ++ snd kv ++ [10])
               extracted_texts))]
  /\ (forall a b X Y : str,
         a <> b ->
         Writer.combined_text (Dict.set (Dict.set [] a X) b Y)
         = lit "=== " ++ a ++ lit " ===" ++ [10] ++ X ++ [10]
           ++ [10]
           ++ lit "=== " ++ b ++ lit " ===" ++ [10] ++ Y ++ [10]).
Proof.
  split.
  - unfold Writer.create_combined_dataset.
    now rewrite combined_text_blocks.
  - intros a b X Y Hab. rewrite combined_text_blocks.
    apply str_eqb_neq in Hab. cbn [Dict.set]. rewrite Hab.
    cbn [map Py.join fst snd]. unfold Writer.block.
    now rewrite <- !app_assoc.
Qed.

End Combined.

(** The keys [a] then [b] with the texts [X] and [Y]. *)
Lemma combined_dataset_content_sample :
  Writer.combined_text
    (Dict.set (Dict.set [] (lit "a") (lit "X")) (lit "b") (lit "Y"))
  = lit "=== a ===
X

=== b ===
Y
".
Proof.
  apply (proj2 (combined_dataset_content [] []) (lit "a") (lit "b")
           (lit "X") (lit "Y")).
  vm_compute. discriminate.
Defined.

(** ** PDF pages *)

Section PdfPages.

Import PdfTextExtractor.

Lemma joined_pages_filter (page_texts : list str) :
  joined_pages page_texts
  = Py.join [10] (filter (fun p => truthy (Py.strip p)) page_texts).
Proof.
  unfold joined_pages.
  rewrite (fold_append_filter (fun p => truthy (Py.strip p)) (fun p => p)).
  simpl. now rewrite map_id.
Qed.

(** C6: the text before cleaning is the newline-joined list of the pages
    whose trimmed text is not empty, in page order; for three pages of which
    the second is whitespace only, it is page 1, one newline, page 3. *)
Theorem pdf_keeps_nonblank_pages (page_texts : list str) :
  joined_pages page_texts
  = Py.join [10] (filter (fun p => truthy (Py.strip p)) page_texts)
  /\ (forall p1 p2 p3 : str,
         page_texts = [p1; p2; p3] ->
         Py.strip p1 <> [] ->
         forallb Py.isspace p2 = true ->
         Py.strip p3 <> [] ->
         joined_pages page_texts = p1 ++ [10] ++ p3).
Proof.
  split; [apply joined_pages_filter|].
  intros p1 p2 p3 -> H1 H2 H3. rewrite joined_pages_filter. simpl.
  apply truthy_true in H1, H3. rewrite H1, H3.
  now rewrite (strip_all_space p2 H2).
Qed.

End PdfPages.

(** Three pages, the second of spaces and a newline. *)
Lemma pdf_keeps_nonblank_pages_sample :
  PdfTextExtractor.joined_pages [lit "Page one "; lit "  
 "; lit " Page three"]
  = lit "Page one 
 Page three".
Proof.
  apply (proj2 (pdf_keeps_nonblank_pages _) (lit "Page one ") (lit "  
 ") (lit " Page three")).
  - reflexivity.
  - vm_compute. discriminate.
  - reflexivity.
  - vm_compute. discriminate.
Defined.

(** ** File keys *)

Section FileKeys.

Lemma replace_aux_absent (o : char) (os new s rest : str) :
  ~ In o s ->
  Py.replace_aux (o :: os) new O (s ++ rest)
  = s ++ Py.replace_aux (o :: os) new O rest.
Proof.
  induction s as [|c s IH]; intros Hs; [reflexivity|].
  simpl app. cbn [Py.replace_aux Py.startswith].
  destruct (o =? c) eqn:E.
  - apply Z.eqb_eq in E. subst c. simpl in Hs. tauto.
  - simpl. f_equal. apply IH. simpl in Hs. tauto.
Qed.

Lemma replace_absent (o : char) (os new s : str) :
  ~ In o s -> Py.replace (o :: os) new s = s.
Proof.
  intros Hs. unfold Py.replace.
  rewrite <- (app_nil_r s) at 1.
  rewrite (replace_aux_absent o os new s [] Hs). simpl.
  apply app_nil_r.
Qed.

Lemma flatten_plain (s : str) :
  ~ In 47 s -> ~ In 92 s -> Spec.flatten_separators s = s.
Proof.
  unfold Spec.flatten_separators.
  induction s as [|c s IH]; simpl; intros H1 H2; [reflexivity|].
  destruct (c =? 47) eqn:E1; [apply Z.eqb_eq in E1; tauto|].
  destruct (c =? 92) eqn:E2; [apply Z.eqb_eq in E2; tauto|].
  simpl. f_equal. apply IH; tauto.
Qed.

Lemma startswith_app (p s : str) : Py.startswith p (p ++ s) = true.
Proof.
  induction p as [|a p IH]; simpl; [reflexivity|].
  now rewrite Z.eqb_refl, IH.
Qed.

Lemma endswith_app (s suffix : str) : Spec.endswith suffix (s ++ suffix) = true.
Proof.
  unfold Spec.endswith. rewrite rev_app_distr. apply startswith_app.
Qed.

Lemma removesuffix_app (s suffix : str) :
  Spec.removesuffix suffix (s ++ suffix) = s.
Proof.
  unfold Spec.removesuffix. rewrite endswith_app, length_app.
  replace (List.length s + List.length suffix - List.length suffix)%nat
    with (List.length s) by lia.
  induction s as [|c s IH]; simpl; [|now rewrite IH].
  now destruct suffix.
Qed.

(** C3 fails on every [.html] file: for a file at the input root whose stem
    has no dot and no separator, the key computed is the stem followed by
    the letter [l], where the extension stripped from the end leaves the
    stem; and that is the key the runner records for the file. *)
Theorem html_key_keeps_last_letter (stem : str) :
  ~ In 46 stem -> ~ In 47 stem -> ~ In 92 stem ->
  HtmlTextExtractor.file_key (stem ++ lit ".html") = stem ++ lit "l"
  /\ Spec.html_key (stem ++ lit ".html") = stem
  /\ (forall (U : UnicodeData) (f : HtmlTextExtractor.html_file),
         HtmlTextExtractor.relative_path f = stem ++ lit ".html" ->
         HtmlTextExtractor.extract_text_from_html f <> [] ->
         HtmlTextExtractor.process_all_html_files [f]
         = [(stem ++ lit "l", HtmlTextExtractor.extract_text_from_html f)]).
Proof.
  intros Hdot Hslash Hback.
  assert (K : HtmlTextExtractor.file_key (stem ++ lit ".html") = stem ++ lit "l");
    [|split; [exact K|split]].
  - unfold HtmlTextExtractor.file_key.
    assert (E92 : ~ In 92 (stem ++ lit ".html")).
    { rewrite in_app_iff. intros [?|Hin]; [tauto|].
      vm_compute in Hin. intuition discriminate. }
    assert (E47 : ~ In 47 (stem ++ lit ".html")).
    { rewrite in_app_iff. intros [?|Hin]; [tauto|].
      vm_compute in Hin. intuition discriminate. }
    rewrite (replace_absent 92 [] [95] _ E92).
    rewrite (replace_absent 47 [] [95] _ E47).
    change (lit ".htm") with (46 :: lit "htm").
    unfold Py.replace at 2.
    rewrite (replace_aux_absent 46 (lit "htm") [] stem (lit ".html") Hdot).
    change (Py.replace_aux (46 :: lit "htm") [] 0 (lit ".html")) with (lit "l").
    change (lit ".html") with (46 :: lit "html").
    apply replace_absent.
    rewrite in_app_iff. intros [?|Hin]; [tauto|].
    vm_compute in Hin. intuition discriminate.
  - unfold Spec.html_key.
    assert (E : Spec.flatten_separators (stem ++ lit ".html") = stem ++ lit ".html").
    { apply flatten_plain; rewrite in_app_iff; intros [?|Hin]; try tauto;
        vm_compute in Hin; intuition discriminate. }
    rewrite E. cbv zeta. rewrite endswith_app. apply removesuffix_app.
  - intros U f Hpath Htext. unfold HtmlTextExtractor.process_all_html_files.
    cbn [fold_left]. apply truthy_true in Htext. rewrite Htext.
    cbn [Dict.set]. now rewrite Hpath, K.
Qed.

(** The same stems with the other extensions: [.htm] and [.pdf] are
    removed as the specification says. *)
Lemma htm_key_is_stem (stem : str) :
  ~ In 46 stem -> ~ In 47 stem -> ~ In 92 stem ->
  HtmlTextExtractor.file_key (stem ++ lit ".htm") = stem.
Proof.
  intros Hdot Hslash Hback. unfold HtmlTextExtractor.file_key.
  assert (E92 : ~ In 92 (stem ++ lit ".htm")).
  { rewrite in_app_iff. intros [?|Hin]; [tauto|].
    vm_compute in Hin. intuition discriminate. }
  assert (E47 : ~ In 47 (stem ++ lit ".htm")).
  { rewrite in_app_iff. intros [?|Hin]; [tauto|].
    vm_compute in Hin. intuition discriminate. }
  rewrite (replace_absent 92 [] [95] _ E92).
  rewrite (replace_absent 47 [] [95] _ E47).
  change (lit ".htm") with (46 :: lit "htm").
  unfold Py.replace at 2.
  rewrite (replace_aux_absent 46 (lit "htm") [] stem (46 :: lit "htm") Hdot).
  change (Py.replace_aux (46 :: lit "htm") [] 0 (46 :: lit "htm")) with (@nil char).
  rewrite app_nil_r. change (lit ".html") with (46 :: lit "html").
  now apply replace_absent.
Qed.

Lemma pdf_key_is_stem (stem : str) :
  ~ In 46 stem -> ~ In 47 stem -> ~ In 92 stem ->
  PdfTextExtractor.file_key (stem ++ lit ".pdf") = stem.
Proof.
  intros Hdot Hslash Hback. unfold PdfTextExtractor.file_key.
  assert (E92 : ~ In 92 (stem ++ lit ".pdf")).
  { rewrite in_app_iff. intros [?|Hin]; [tauto|].
    vm_compute in Hin. intuition discriminate. }
  assert (E47 : ~ In 47 (stem ++ lit ".pdf")).
  { rewrite in_app_iff. intros [?|Hin]; [tauto|].
    vm_compute in Hin. intuition discriminate. }
  rewrite (replace_absent 92 [] [95] _ E92).
  rewrite (replace_absent 47 [] [95] _ E47).
  change (lit ".pdf") with (46 :: lit "pdf").
  unfold Py.replace.
  rewrite (replace_aux_absent 46 (lit "pdf") [] stem (46 :: lit "pdf") Hdot).
  change (Py.replace_aux (46 :: lit "pdf") [] 0 (46 :: lit "pdf")) with (@nil char).
  apply app_nil_r.
Qed.

End FileKeys.

(** The file [chapter1.html] at the input root. *)
Lemma html_key_keeps_last_letter_sample :
  HtmlTextExtractor.file_key (lit "chapter1.html") = lit "chapter1l"
  /\ Spec.html_key (lit "chapter1.html") = lit "chapter1"
  /\ @HtmlTextExtractor.process_all_html_files Sample.ascii_db [Sample.chapter1]
     = [(lit "chapter1l", lit "Once upon a time")].
Proof.
  assert (Hdot : ~ In 46 (lit "chapter1")) by (vm_compute; intuition discriminate).
  assert (Hslash : ~ In 47 (lit "chapter1")) by (vm_compute; intuition discriminate).
  assert (Hback : ~ In 92 (lit "chapter1")) by (vm_compute; intuition discriminate).
  destruct (html_key_keeps_last_letter (lit "chapter1") Hdot Hslash Hback)
    as [K [S R]].
  split; [exact K|split; [exact S|]].
  apply (R Sample.ascii_db Sample.chapter1); [reflexivity|].
  vm_compute. discriminate.
Defined.

(** ** HTML selection *)

Section HtmlSelection.

Import HtmlTextExtractor.

Lemma find_first {A} (test : A -> bool) (before after : list A) (x : A) :
  test x = true -> Forall (fun y => test y = false) before ->
  List.find test (before ++ x :: after) = Some x.
Proof.
  intros Hx Hb. induction Hb as [|y l Hy _ IH]; simpl.
  - now rewrite Hx.
  - now rewrite Hy.
Qed.

Lemma find_nothing {A} (test : A -> bool) (l : list A) :
  Forall (fun y => test y = false) l -> List.find test l = None.
Proof.
  induction 1 as [|y l Hy _ IH]; simpl; [reflexivity|].
  now rewrite Hy.
Qed.

Lemma find_is_first {A} (test : A -> bool) (l : list A) (x : A) :
  List.find test l = Some x ->
  exists before after,
    l = before ++ x :: after /\ test x = true
    /\ Forall (fun y => test y = false) before.
Proof.
  induction l as [|y l IH]; simpl; [discriminate|].
  destruct (test y) eqn:Hy.
  - intros [= ->]. exists [], l. repeat split; [exact Hy|constructor].
  - intros Hf. destruct (IH Hf) as [before [after [E [Hx Hb]]]].
    exists (y :: before), after. rewrite E.
    repeat split; [exact Hx|now constructor].
Qed.

Lemma article_text_parts_filter (article : node) :
  article_text_parts article
  = map (fun p => Py.strip (get_text p))
        (filter (fun p => truthy (Py.strip (get_text p)))
                (filter (has_name (lit "p")) (descendants_of article))).
Proof.
  unfold article_text_parts, find_all.
  exact (fold_append_filter (fun p => truthy (Py.strip (get_text p)))
           (fun p => Py.strip (get_text p)) _ []).
Qed.

(** C1, as amended: on the tree without its scripts and styles, the text is
    chosen by which elements exist.  With an article, it is the
    newline-joined trimmed non-empty texts of the paragraphs of the first
    article, whatever they are; without an article, the text of the first
    division of class story-content; with neither, the text of the first
    body; with none of the three, the text of the whole document. *)
Theorem html_selection_by_presence (parsed : soup) :
  (forall article,
      Spec.first_in_document (decompose_scripts parsed) Spec.is_article article ->
      selected_text parsed
      = Py.join [10]
          (map (fun p => Py.strip (get_text p))
             (filter (fun p => truthy (Py.strip (get_text p)))
                (filter (has_name (lit "p")) (descendants_of article)))))
  /\ (forall story_content,
         Spec.none_in_document (decompose_scripts parsed) Spec.is_article ->
         Spec.first_in_document (decompose_scripts parsed)
           Spec.is_story_division story_content ->
         selected_text parsed = get_text story_content)
  /\ (forall body,
         Spec.none_in_document (decompose_scripts parsed) Spec.is_article ->
         Spec.none_in_document (decompose_scripts parsed) Spec.is_story_division ->
         Spec.first_in_document (decompose_scripts parsed) Spec.is_body body ->
         selected_text parsed = get_text body)
  /\ (Spec.none_in_document (decompose_scripts parsed) Spec.is_article ->
      Spec.none_in_document (decompose_scripts parsed) Spec.is_story_division ->
      Spec.none_in_document (decompose_scripts parsed) Spec.is_body ->
      selected_text parsed = soup_get_text (decompose_scripts parsed)).
Proof.
  unfold Spec.first_in_document, Spec.none_in_document, selected_text,
    find, find_div_class.
  set (doc := decompose_scripts parsed).
  change (has_name (lit "article")) with Spec.is_article.
  change (has_name (lit "body")) with Spec.is_body.
  change (fun n => has_name (lit "div") n && has_class (lit "story-content") n)
    with Spec.is_story_division.
  split; [|split; [|split]].
  - intros article [before [after [E [Ha Hb]]]].
    rewrite E, (find_first _ before after article Ha Hb).
    now rewrite article_text_parts_filter.
  - intros d Hno [before [after [E [Hd Hb]]]].
    rewrite (find_nothing _ _ Hno).
    rewrite E.
    now rewrite (find_first _ before after d Hd Hb).
  - intros b Hno1 Hno2 [before [after [E [Hbody Hb]]]].
    rewrite (find_nothing _ _ Hno1).
    rewrite (find_nothing _ _ Hno2).
    now rewrite E, (find_first _ before after b Hbody Hb).
  - intros Hno1 Hno2 Hno3.
    rewrite (find_nothing _ _ Hno1).
    rewrite (find_nothing _ _ Hno2).
    now rewrite (find_nothing _ _ Hno3).
Qed.

(** One of the four cases always applies. *)
Lemma html_selection_cases (doc : soup) :
  (exists article, Spec.first_in_document doc Spec.is_article article)
  \/ (Spec.none_in_document doc Spec.is_article
      /\ ((exists d, Spec.first_in_document doc Spec.is_story_division d)
          \/ (Spec.none_in_document doc Spec.is_story_division
              /\ ((exists b, Spec.first_in_document doc Spec.is_body b)
                  \/ Spec.none_in_document doc Spec.is_body)))).
Proof.
  assert (D : forall test,
             (exists n, Spec.first_in_document doc test n)
             \/ Spec.none_in_document doc test).
  { intros test. destruct (List.find test (descendants doc)) as [n|] eqn:F.
    - left. exists n. now apply find_is_first.
    - right. apply Forall_forall. intros m Hm.
      exact (find_none test _ F m Hm). }
  destruct (D Spec.is_article) as [?|Ha]; [now left|right; split; [exact Ha|]].
  destruct (D Spec.is_story_division) as [?|Hs]; [now left|right; split; [exact Hs|]].
  apply D.
Qed.

End HtmlSelection.

(** C1, as stated, fails: an article without paragraphs next to a
    story-content division.  Rule (a) finds nothing and the strict chain
    gives the division's text, but the selected text is empty, and so is
    the text extracted from the file. *)
Lemma article_without_paragraphs_stops_the_chain :
  Spec.rule_a (HtmlTextExtractor.decompose_scripts Sample.article_without_paragraphs)
  = []
  /\ Spec.strict_fallback_text Sample.article_without_paragraphs
     = lit "Once upon a time"
  /\ HtmlTextExtractor.selected_text Sample.article_without_paragraphs = []
  /\ (forall U : UnicodeData,
         @HtmlTextExtractor.extract_text_from_html U
           {| HtmlTextExtractor.relative_path := lit "story.htm";
              HtmlTextExtractor.parsed := Some Sample.article_without_paragraphs |}
         = []).
Proof.
  repeat split.
Qed.

(** A document with a story-content division and no article: the text is
    the division's. *)
Lemma html_selection_by_presence_sample :
  HtmlTextExtractor.selected_text Sample.story_division = lit "Once upon a time".
Proof.
  apply (proj1 (proj2 (html_selection_by_presence Sample.story_division))
           (HtmlTextExtractor.Tag (lit "div") [lit "story-content"]
              [HtmlTextExtractor.NavigableString (lit "Once upon a time")])).
  - unfold Spec.none_in_document. vm_compute. repeat constructor.
  - exists (firstn 3 (HtmlTextExtractor.descendants
                        (HtmlTextExtractor.decompose_scripts Sample.story_division))),
           (skipn 4 (HtmlTextExtractor.descendants
                       (HtmlTextExtractor.decompose_scripts Sample.story_division))).
    split; [reflexivity|]. split; [reflexivity|].
    vm_compute. repeat constructor.
Defined.

(** ** Scripts and styles are gone before the selection *)

Section Decompose.

Import HtmlTextExtractor.

Lemma node_nested_ind (P : node -> Prop) :
  (forall s, P (NavigableString s)) ->
  (forall nm cls cs, Forall P cs -> P (Tag nm cls cs)) ->
  forall n, P n.
Proof.
  intros Hs Ht. fix IH 1. intros [s|nm cls cs]; [apply Hs|apply Ht].
  induction cs as [|c cs IHcs]; constructor; [apply IH|exact IHcs].
Qed.

Lemma decompose_in_name (n : node) :
  is_script_or_style (decompose_in n) = is_script_or_style n.
Proof. now destruct n. Qed.

Lemma descendants_app (l1 l2 : soup) :
  descendants (l1 ++ l2) = descendants l1 ++ descendants l2.
Proof. apply flat_map_app. Qed.

Lemma decompose_children_clean (cs : list node) :
  Forall (fun c => Forall (fun m => is_script_or_style m = false)
                          (descendants_of (decompose_in c))) cs ->
  Forall (fun m => is_script_or_style m = false)
         (descendants (decompose_scripts cs)).
Proof.
  unfold decompose_scripts.
  induction 1 as [|c cs Hc _ IH]; simpl; [constructor|].
  rewrite descendants_app. apply Forall_app. split; [|exact IH].
  destruct (is_script_or_style c) eqn:E; [constructor|].
  unfold descendants. simpl. rewrite app_nil_r.
  constructor; [now rewrite decompose_in_name|exact Hc].
Qed.

Lemma decompose_in_clean (n : node) :
  Forall (fun m => is_script_or_style m = false)
         (descendants_of (decompose_in n)).
Proof.
  induction n as [s|nm cls cs IH] using node_nested_ind; simpl; [constructor|].
  exact (decompose_children_clean cs IH).
Qed.

(** No script and no style element is left in the tree the selection
    works on. *)
Lemma decompose_scripts_clean (doc : soup) :
  Forall (fun m => is_script_or_style m = false)
         (descendants (decompose_scripts doc)).
Proof.
  apply decompose_children_clean. apply Forall_forall.
  intros c _. apply decompose_in_clean.
Qed.

End Decompose.

(** ** The other two runs stop in the same way *)

Section OtherRuns.
Context `{UnicodeData}.

Lemma empty_html_batch_writes_nothing (html_files : list HtmlTextExtractor.html_file) :
  HtmlTextExtractor.process_all_html_files html_files = [] ->
  HtmlTextExtractor.main html_files = [Mkdir (lit "data/clean")].
Proof.
  intros E. unfold HtmlTextExtractor.main. now rewrite E.
Qed.

Lemma empty_pdf_batch_writes_nothing (pdf_files : list PdfTextExtractor.pdf_file) :
  PdfTextExtractor.process_all_pdf_files pdf_files = [] ->
  PdfTextExtractor.main pdf_files = [Mkdir (lit "data/clean")].
Proof.
  intros E. unfold PdfTextExtractor.main. now rewrite E.
Qed.

End OtherRuns.

(** The replacement is not anchored at the end either: an extension inside
    the path goes as well. *)
Lemma pdf_key_removes_inner_extension :
  PdfTextExtractor.file_key (lit "my.pdfs/x.pdf") = lit "mys_x"
  /\ Spec.pdf_key (lit "my.pdfs/x.pdf") = lit "my.pdfs_x".
Proof. split; reflexivity. Qed.

(** ** ASCII input *)

(** On ASCII input the cleaned text does not depend on the Unicode
    database. *)
Lemma clean_text_ascii (U1 U2 : UnicodeData) (T : str) :
  Forall (fun c => c < 128) T ->
  @DocxTextExtractor.clean_text U1 T = @DocxTextExtractor.clean_text U2 T.
Proof.
  intros HT. unfold DocxTextExtractor.clean_text. do 2 f_equal.
  unfold Re.sub_class. apply map_ext_in. intros c Hc.
  rewrite Forall_forall in HT. specialize (HT c Hc).
  apply Z.ltb_lt in HT.
  unfold DocxTextExtractor.kept, Re.word, Py.isalnum. now rewrite HT.
Qed.

(** * Further properties *)

(** ** Words *)

Section Words.

Lemma split_aux_spaces (cur ws : str) :
  forallb Py.isspace ws = true -> Py.split_aux cur ws = Py.split_aux cur [].
Proof.
  revert cur. induction ws as [|c ws IH]; intros cur Hws; [reflexivity|].
  simpl in Hws. apply andb_prop in Hws as [Hc Hws]. simpl. rewrite Hc.
  destruct cur; rewrite (IH [] Hws); reflexivity.
Qed.

Lemma split_aux_app_space (cur a : str) (c : char) (b : str) :
  Py.isspace c = true ->
  Py.split_aux cur (a ++ c :: b) = Py.split_aux cur a ++ Py.split b.
Proof.
  intros Hc. revert cur. induction a as [|x a IH]; intros cur; simpl.
  - rewrite Hc. now destruct cur.
  - destruct (Py.isspace x).
    + destruct cur; rewrite IH; reflexivity.
    + apply IH.
Qed.

Lemma split_lead (ws s : str) :
  forallb Py.isspace ws = true -> Py.split (ws ++ s) = Py.split s.
Proof.
  unfold Py.split. induction ws as [|c ws IH]; intros Hws; [reflexivity|].
  simpl in Hws. apply andb_prop in Hws as [Hc Hws]. simpl. rewrite Hc.
  now apply IH.
Qed.

Lemma split_aux_trail (cur x suf : str) :
  forallb Py.isspace suf = true ->
  Py.split_aux cur (x ++ suf) = Py.split_aux cur x.
Proof.
  intros Hs. revert cur. induction x as [|c x IH]; intros cur; simpl.
  - now apply split_aux_spaces.
  - destruct (Py.isspace c).
    + destruct cur; now rewrite IH.
    + apply IH.
Qed.

Lemma split_strip (s : str) : Py.split (Py.strip s) = Py.split s.
Proof.
  destruct (lstrip_suffix s) as [pre [E1 H1]].
  destruct (rstrip_prefix (Py.lstrip s)) as [suf [E2 H2]].
  fold (Py.strip s) in E2.
  rewrite E1 at 2. rewrite (split_lead pre _ H1), E2.
  unfold Py.split. now rewrite (split_aux_trail [] (Py.strip s) suf H2).
Qed.

Lemma split_sub_space_runs (t : str) (in_run : bool) (cur : str) :
  (in_run = true -> cur = []) ->
  Py.split_aux cur (Re.sub_space_runs_aux in_run t) = Py.split_aux cur t.
Proof.
  revert in_run cur. induction t as [|c t IH]; intros in_run cur Hb;
    [reflexivity|].
  simpl. unfold Re.space. destruct (Py.isspace c) eqn:Ec.
  - destruct in_run.
    + rewrite (Hb eq_refl). now apply IH.
    + simpl. destruct cur; now rewrite (IH true []).
  - simpl. rewrite Ec. apply IH. discriminate.
Qed.

(** A normalized string is its words joined with single spaces. *)
Lemma join_split_aux_normal (s cur : str) :
  Shape.only_blank_spaces s ->
  Shape.single_spaced s = true ->
  (cur = [] -> Shape.starts_nonspace s = true) ->
  Shape.starts_nonspace (rev s) = true ->
  Py.join [32] (Py.split_aux cur s) = rev cur ++ s.
Proof.
  intros B. revert cur. induction B as [|c s Bc B IH]; intros cur S N1 N2.
  - simpl. destruct cur; simpl; [reflexivity|now rewrite app_nil_r].
  - simpl. destruct (Py.isspace c) eqn:Ec.
    + assert (Hcur : cur <> []).
      { intros ->. specialize (N1 eq_refl). simpl in N1. now rewrite Ec in N1. }
      assert (Hs : s <> []).
      { intros ->. simpl in N2. now rewrite Ec in N2. }
      assert (N1' : Shape.starts_nonspace s = true).
      { destruct s as [|c2 r]; [reflexivity|].
        change (negb (Py.isspace c && Py.isspace c2)
                && Shape.single_spaced (c2 :: r) = true) in S.
        apply andb_prop in S as [S _]. rewrite Ec in S. exact S. }
      assert (N2' : Shape.starts_nonspace (rev s) = true).
      { simpl in N2. now apply starts_nonspace_prefix in N2. }
      specialize (IH [] (single_spaced_tail c s S) (fun _ => N1') N2').
      simpl in IH.
      destruct cur as [|x cur]; [congruence|].
      destruct (Py.split_aux [] s) as [|w ws] eqn:Ew.
      * simpl in IH. congruence.
      * change (Py.join [32] (rev (x :: cur) :: w :: ws))
          with (rev (x :: cur) ++ [32] ++ Py.join [32] (w :: ws)).
        rewrite IH, (Bc eq_refl). reflexivity.
    + rewrite IH.
      * simpl. now rewrite <- app_assoc.
      * now apply single_spaced_tail in S.
      * discriminate.
      * simpl in N2. now apply starts_nonspace_prefix in N2.
Qed.

Lemma length_split_aux (s cur : str) :
  (List.length (Py.split_aux cur s) <= List.length s + List.length cur)%nat.
Proof.
  revert cur. induction s as [|c s IH]; intros cur; simpl.
  - destruct cur; simpl; lia.
  - destruct (Py.isspace c).
    + specialize (IH []). destruct cur; simpl in *; lia.
    + specialize (IH (c :: cur)). simpl in IH. lia.
Qed.

Lemma length_join_blank (ws : list str) :
  ws <> [] ->
  (List.length (Py.join [32%Z] ws) + 1
   = list_sum (map (fun w => List.length w + 1) ws))%nat.
Proof.
  induction ws as [|w ws IH]; [congruence|]. intros _.
  destruct ws as [|w2 ws].
  - simpl. lia.
  - change (Py.join [32] (w :: w2 :: ws))
      with (w ++ [32] ++ Py.join [32] (w2 :: ws)).
    specialize (IH ltac:(discriminate)).
    rewrite !length_app.
    change (map (fun w => List.length w + 1) (w :: w2 :: ws))%nat
      with ((List.length w + 1) :: map (fun w => List.length w + 1) (w2 :: ws))%nat.
    change (List.length [32]) with 1%nat.
    unfold list_sum in *. cbn [fold_right]. lia.
Qed.

End Words.

(** ** More about the cleaning function *)

Section CleanTextWords.
Context `{UnicodeData}.

Import DocxTextExtractor.

(** The cleaned text is the words of the text after the first
    substitution, joined with single spaces. *)
Lemma clean_text_words (T : str) :
  clean_text T
  = Py.join [32] (Py.split (Re.sub_class (fun c => negb (kept c)) T)).
Proof.
  destruct (clean_text_normalized T) as [_ [B [S [N1 N2]]]].
  pose proof (join_split_aux_normal (clean_text T) [] B S (fun _ => N1) N2) as J.
  simpl in J. rewrite <- J at 1. f_equal.
  unfold clean_text, Re.sub_space_runs. rewrite split_strip.
  apply (split_sub_space_runs _ false []). discriminate.
Qed.

Lemma split_clean_text (T : str) :
  Py.split (clean_text T)
  = Py.split (Re.sub_class (fun c => negb (kept c)) T).
Proof.
  unfold clean_text, Re.sub_space_runs. rewrite split_strip.
  apply (split_sub_space_runs _ false []). discriminate.
Qed.

Lemma filter_visible_spaces (ws : str) :
  forallb Py.isspace ws = true ->
  filter (fun c => negb (Py.isspace c)) ws = [].
Proof.
  induction ws as [|c ws IH]; simpl; [reflexivity|].
  intros [Hc Hws]%andb_prop. rewrite Hc. simpl. now apply IH.
Qed.

Lemma filter_visible_strip (s : str) :
  filter (fun c => negb (Py.isspace c)) (Py.strip s)
  = filter (fun c => negb (Py.isspace c)) s.
Proof.
  destruct (lstrip_suffix s) as [pre [E1 H1]].
  destruct (rstrip_prefix (Py.lstrip s)) as [suf [E2 H2]].
  fold (Py.strip s) in E2.
  rewrite E1 at 2. rewrite E2.
  rewrite !filter_app, (filter_visible_spaces pre H1),
    (filter_visible_spaces suf H2).
  simpl. now rewrite app_nil_r.
Qed.

Lemma filter_visible_runs (t : str) (in_run : bool) :
  filter (fun c => negb (Py.isspace c)) (Re.sub_space_runs_aux in_run t)
  = filter (fun c => negb (Py.isspace c)) t.
Proof.
  revert in_run. induction t as [|c t IH]; intros in_run; [reflexivity|].
  simpl. unfold Re.space. destruct (Py.isspace c) eqn:Ec; simpl.
  - destruct in_run; simpl; apply IH.
  - rewrite Ec. simpl. f_equal. apply IH.
Qed.

Lemma filter_visible_sub_class (T : str) :
  filter (fun c => negb (Py.isspace c))
         (Re.sub_class (fun c => negb (kept c)) T)
  = filter (fun c => kept c && negb (Py.isspace c)) T.
Proof.
  unfold Re.sub_class. induction T as [|c T IH]; [reflexivity|].
  simpl. destruct (kept c) eqn:K; simpl.
  - destruct (Py.isspace c); simpl; now rewrite IH.
  - exact IH.
Qed.

Lemma filter_visible_clean_text (T : str) :
  filter (fun c => negb (Py.isspace c)) (clean_text T)
  = filter (fun c => kept c && negb (Py.isspace c)) T.
Proof.
  unfold clean_text, Re.sub_space_runs.
  now rewrite filter_visible_strip, filter_visible_runs,
    filter_visible_sub_class.
Qed.

Lemma length_sub_space_runs_aux (t : str) (in_run : bool) :
  (List.length (Re.sub_space_runs_aux in_run t) <= List.length t)%nat.
Proof.
  revert in_run. induction t as [|c t IH]; intros in_run; simpl; [lia|].
  destruct (Re.space c).
  - destruct in_run; simpl; specialize (IH true); lia.
  - simpl. specialize (IH false). lia.
Qed.

Lemma length_strip (s : str) :
  (List.length (Py.strip s) <= List.length s)%nat.
Proof.
  destruct (strip_stretch s) as [pre [suf E]].
  rewrite E at 2. rewrite !length_app. lia.
Qed.

Lemma clean_text_nonempty_words (T : str) :
  clean_text T <> [] -> Py.split (clean_text T) <> [].
Proof.
  intros Hne Hs.
  destruct (clean_text_normalized T) as [_ [B [S [N1 N2]]]].
  pose proof (join_split_aux_normal (clean_text T) [] B S (fun _ => N1) N2) as J.
  fold (Py.split (clean_text T)) in J. rewrite Hs in J. simpl in J.
  congruence.
Qed.

(** X1: the cleaned text is the whitespace-separated words of the text
    after the first substitution, joined with single spaces; so its words
    are those words, and joining its words with single spaces gives it
    back. *)
Theorem clean_text_joins_words (T : str) :
  clean_text T
  = Py.join [32] (Py.split (Re.sub_class (fun c => negb (kept c)) T))
  /\ Py.split (clean_text T)
     = Py.split (Re.sub_class (fun c => negb (kept c)) T)
  /\ Py.join [32] (Py.split (clean_text T)) = clean_text T.
Proof.
  split; [apply clean_text_words|]. split; [apply split_clean_text|].
  rewrite split_clean_text. symmetry. apply clean_text_words.
Qed.

(** X2: a non-empty cleaned text has at least one word and at most as many
    words as characters, and its length is the lengths of its words plus
    one space between each two. *)
Theorem cleaned_length_counts_words (T : str) :
  clean_text T <> [] ->
  (1 <= List.length (Py.split (clean_text T)))%nat
  /\ (List.length (Py.split (clean_text T)) <= List.length (clean_text T))%nat
  /\ (List.length (clean_text T) + 1
      = list_sum (map (fun w => List.length w + 1)
                      (Py.split (clean_text T))))%nat.
Proof.
  intros Hne. pose proof (clean_text_nonempty_words T Hne) as Hw.
  split; [|split].
  - destruct (Py.split (clean_text T)); [congruence|simpl; lia].
  - pose proof (length_split_aux (clean_text T) []) as L.
    unfold Py.split. simpl in L. lia.
  - rewrite <- (length_join_blank _ Hw).
    destruct (clean_text_normalized T) as [_ [B [S [N1 N2]]]].
    pose proof (join_split_aux_normal (clean_text T) [] B S (fun _ => N1) N2) as J.
    fold (Py.split (clean_text T)) in J. simpl in J. now rewrite J.
Qed.

(** X3: cleaning neither drops nor reorders nor adds visible characters:
    the non-whitespace characters of the cleaned text are the kept
    non-whitespace characters of the input, in their order. *)
Theorem clean_text_keeps_visible_characters (T : str) :
  filter (fun c => negb (Py.isspace c)) (clean_text T)
  = filter (fun c => kept c && negb (Py.isspace c)) T.
Proof. apply filter_visible_clean_text. Qed.

(** X4: the cleaned text is empty exactly when the input has no kept
    non-whitespace character. *)
Theorem clean_text_empty_iff (T : str) :
  clean_text T = []
  <-> Forall (fun c => kept c && negb (Py.isspace c) = false) T.
Proof.
  pose proof (filter_visible_clean_text T) as F. split.
  - intros E. rewrite E in F. simpl in F.
    apply Forall_forall. intros c Hc.
    destruct (kept c && negb (Py.isspace c)) eqn:V; [|reflexivity].
    assert (Hin : In c (filter (fun c => kept c && negb (Py.isspace c)) T))
      by (apply filter_In; auto).
    rewrite <- F in Hin. destruct Hin.
  - intros HT.
    assert (E : filter (fun c => kept c && negb (Py.isspace c)) T = []).
    { clear F. induction HT as [|c T Hc _ IH]; simpl; [reflexivity|].
      now rewrite Hc. }
    rewrite E in F.
    destruct (clean_text_normalized T) as [_ [_ [_ [N1 _]]]].
    destruct (clean_text T) as [|c r]; [reflexivity|].
    simpl in N1, F. rewrite N1 in F. discriminate.
Qed.

(** X5: cleaning never makes a text longer. *)
Theorem clean_text_never_longer (T : str) :
  (List.length (clean_text T) <= List.length T)%nat.
Proof.
  unfold clean_text, Re.sub_space_runs.
  etransitivity; [apply length_strip|].
  etransitivity; [apply length_sub_space_runs_aux|].
  unfold Re.sub_class. now rewrite length_map.
Qed.


End CleanTextWords.

(** The sentence [Don't   stop - now] cleans to [Don t stop now]: four
    words, fourteen characters. *)
Lemma cleaned_length_counts_words_sample :
  @DocxTextExtractor.clean_text Sample.ascii_db (lit "Don't   stop - now ")
  = lit "Don t stop now"
  /\ (1 <= List.length (Py.split (@DocxTextExtractor.clean_text Sample.ascii_db
                                    (lit "Don't   stop - now "))))%nat
  /\ (List.length (Py.split (@DocxTextExtractor.clean_text Sample.ascii_db
                               (lit "Don't   stop - now ")))
      <= List.length (@DocxTextExtractor.clean_text Sample.ascii_db
                        (lit "Don't   stop - now ")))%nat
  /\ (List.length (@DocxTextExtractor.clean_text Sample.ascii_db
                     (lit "Don't   stop - now ")) + 1
      = list_sum (map (fun w => List.length w + 1)
                      (Py.split (@DocxTextExtractor.clean_text Sample.ascii_db
                                   (lit "Don't   stop - now ")))))%nat.
Proof.
  split; [reflexivity|].
  apply (@cleaned_length_counts_words Sample.ascii_db
           (lit "Don't   stop - now ")).
  vm_compute. discriminate.
Defined.

(** ** What the three extractors return *)

Section ExtractedWords.
Context `{UnicodeData}.

Local Abbreviation sub := (Re.sub_class (fun c => negb (DocxTextExtractor.kept c))).

Lemma sub_spaces (ws : str) : forallb Py.isspace ws = true -> sub ws = ws.
Proof.
  unfold Re.sub_class. induction ws as [|c ws IH]; simpl; [reflexivity|].
  intros [Hc Hws]%andb_prop. rewrite (kept_space c Hc). simpl.
  now rewrite IH.
Qed.

Lemma words_strip (p : str) : Py.split (sub (Py.strip p)) = Py.split (sub p).
Proof.
  destruct (lstrip_suffix p) as [pre [E1 H1]].
  destruct (rstrip_prefix (Py.lstrip p)) as [suf [E2 H2]].
  fold (Py.strip p) in E2.
  rewrite E1 at 2. rewrite E2. unfold Re.sub_class. rewrite !map_app.
  fold (sub pre). fold (sub suf). fold (sub (Py.strip p)).
  rewrite (sub_spaces pre H1), (sub_spaces suf H2).
  rewrite (split_lead pre _ H1). unfold Py.split.
  now rewrite (split_aux_trail [] _ suf H2).
Qed.

Lemma words_join (l : list str) :
  Py.split (sub (Py.join [10] l))
  = List.concat (map (fun p => Py.split (sub p)) l).
Proof.
  induction l as [|p l IH]; [reflexivity|].
  destruct l as [|q l].
  - simpl. now rewrite app_nil_r.
  - change (Py.join [10] (p :: q :: l)) with (p ++ 10 :: Py.join [10] (q :: l)).
    unfold Re.sub_class. rewrite map_app. cbn [map].
    fold (sub p). fold (sub (Py.join [10] (q :: l))).
    replace (if negb (DocxTextExtractor.kept 10) then 32 else 10) with 10
      by (rewrite (kept_space 10 eq_refl); reflexivity).
    unfold Py.split at 1.
    rewrite (split_aux_app_space [] (sub p) 10 _ eq_refl).
    rewrite IH. reflexivity.
Qed.

Lemma words_of_trimmed {A} (g : A -> str) (l : list A) :
  List.concat
    (map (fun p => Py.split (sub p))
       (map (fun x => Py.strip (g x))
          (filter (fun x => truthy (Py.strip (g x))) l)))
  = List.concat (map (fun x => Py.split (sub (g x))) l).
Proof.
  induction l as [|x l IH]; [reflexivity|]. simpl.
  destruct (truthy (Py.strip (g x))) eqn:E; simpl.
  - now rewrite IH, words_strip.
  - apply truthy_false in E. rewrite IH, <- (words_strip (g x)), E.
    reflexivity.
Qed.

Lemma words_of_nonblank (l : list str) :
  List.concat
    (map (fun p => Py.split (sub p))
       (filter (fun p => truthy (Py.strip p)) l))
  = List.concat (map (fun p => Py.split (sub p)) l).
Proof.
  induction l as [|x l IH]; [reflexivity|]. simpl.
  destruct (truthy (Py.strip x)) eqn:E; simpl.
  - now rewrite IH.
  - apply truthy_false in E. rewrite IH, <- (words_strip x), E.
    reflexivity.
Qed.

Lemma words_by_clean_text {A} (g : A -> str) (l : list A) :
  map (fun x => Py.split (sub (g x))) l
  = map (fun x => Py.split (DocxTextExtractor.clean_text (g x))) l.
Proof.
  apply map_ext. intros x. symmetry. apply split_clean_text.
Qed.

Lemma html_clean_text_eq (T : str) :
  HtmlTextExtractor.clean_text T = DocxTextExtractor.clean_text T.
Proof. reflexivity. Qed.

Lemma pdf_clean_text_eq (T : str) :
  PdfTextExtractor.clean_text T = DocxTextExtractor.clean_text T.
Proof. reflexivity. Qed.

(** X7: the text extracted from a readable DOCX file is the words of its
    cleaned paragraphs, in document order, joined with single spaces; the
    trimming and the dropping of blank paragraphs leave no trace: it is the
    cleaned newline-join of all the paragraphs. *)
Theorem docx_text_is_words_of_paragraphs (st : str) (ps : list str) :
  DocxTextExtractor.extract_text_from_docx
    {| DocxTextExtractor.stem := st; DocxTextExtractor.paragraphs := Some ps |}
  = Py.join [32]
      (List.concat (map (fun p => Py.split (DocxTextExtractor.clean_text p)) ps))
  /\ DocxTextExtractor.extract_text_from_docx
       {| DocxTextExtractor.stem := st; DocxTextExtractor.paragraphs := Some ps |}
     = DocxTextExtractor.clean_text (Py.join [10] ps).
Proof.
  unfold DocxTextExtractor.extract_text_from_docx. cbn [DocxTextExtractor.paragraphs].
  assert (E : DocxTextExtractor.clean_text (DocxTextExtractor.joined_paragraphs ps)
              = Py.join [32] (List.concat (map (fun p => Py.split (sub p)) ps))).
  { rewrite clean_text_words. f_equal.
    unfold DocxTextExtractor.joined_paragraphs.
    rewrite (fold_append_filter (fun p => truthy (Py.strip p))
               (fun p => Py.strip p) ps []).
    cbn [app]. rewrite words_join.
    exact (words_of_trimmed (fun p => p) ps). }
  split.
  - rewrite E. f_equal. f_equal. exact (words_by_clean_text (fun p => p) ps).
  - rewrite E, clean_text_words, words_join. reflexivity.
Qed.

(** X8: the text extracted from a readable PDF file is the words of its
    cleaned pages, in page order, joined with single spaces; dropping the
    blank pages leaves no trace. *)
Theorem pdf_text_is_words_of_pages (rp : str) (page_texts : list str) :
  PdfTextExtractor.extract_text_from_pdf
    {| PdfTextExtractor.relative_path := rp;
       PdfTextExtractor.pages := Some page_texts |}
  = Py.join [32]
      (List.concat
         (map (fun p => Py.split (PdfTextExtractor.clean_text p)) page_texts))
  /\ PdfTextExtractor.extract_text_from_pdf
       {| PdfTextExtractor.relative_path := rp;
          PdfTextExtractor.pages := Some page_texts |}
     = PdfTextExtractor.clean_text (Py.join [10] page_texts).
Proof.
  unfold PdfTextExtractor.extract_text_from_pdf. cbn [PdfTextExtractor.pages].
  rewrite !pdf_clean_text_eq.
  assert (E : DocxTextExtractor.clean_text (PdfTextExtractor.joined_pages page_texts)
              = Py.join [32]
                  (List.concat (map (fun p => Py.split (sub p)) page_texts))).
  { rewrite clean_text_words. f_equal.
    unfold PdfTextExtractor.joined_pages.
    rewrite (fold_append_filter (fun p => truthy (Py.strip p))
               (fun p => p) page_texts []).
    cbn [app]. rewrite map_id, words_join.
    apply words_of_nonblank. }
  split.
  - rewrite E. f_equal. f_equal.
    exact (words_by_clean_text (fun p => p) page_texts).
  - rewrite E, clean_text_words, words_join. reflexivity.
Qed.

(** X9: when the document, without its scripts and styles, has an article,
    the text extracted from the HTML file is the words of the cleaned texts
    of the paragraphs of the first article, in document order, joined with
    single spaces. *)
Theorem html_text_is_words_of_article (rp : str) (doc : HtmlTextExtractor.soup)
  (article : HtmlTextExtractor.node) :
  HtmlTextExtractor.find (lit "article") (HtmlTextExtractor.decompose_scripts doc)
  = Some article ->
  HtmlTextExtractor.extract_text_from_html
    {| HtmlTextExtractor.relative_path := rp;
       HtmlTextExtractor.parsed := Some doc |}
  = Py.join [32]
      (List.concat
         (map (fun p => Py.split (HtmlTextExtractor.clean_text
                                    (HtmlTextExtractor.get_text p)))
              (HtmlTextExtractor.find_all (lit "p") article))).
Proof.
  intros Hfind. unfold HtmlTextExtractor.extract_text_from_html.
  cbn [HtmlTextExtractor.parsed]. unfold HtmlTextExtractor.selected_text.
  rewrite Hfind, html_clean_text_eq, clean_text_words. f_equal.
  rewrite article_text_parts_filter, words_join.
  fold (HtmlTextExtractor.find_all (lit "p") article).
  rewrite (words_of_trimmed HtmlTextExtractor.get_text).
  f_equal. exact (words_by_clean_text HtmlTextExtractor.get_text _).
Qed.

End ExtractedWords.

(** The article of three paragraphs, one of them blank. *)
Lemma html_text_is_words_of_article_sample :
  @HtmlTextExtractor.extract_text_from_html Sample.ascii_db
    {| HtmlTextExtractor.relative_path := lit "a_b.htm";
       HtmlTextExtractor.parsed := Some Corpus.article_with_paragraphs |}
  = lit "First one Second".
Proof.
  rewrite (@html_text_is_words_of_article Sample.ascii_db (lit "a_b.htm")
             Corpus.article_with_paragraphs Corpus.the_article eq_refl).
  reflexivity.
Defined.

(** ** More about file keys *)

Section MoreFileKeys.

Lemma replace_single (a b : char) (s : str) :
  Py.replace [a] [b] s = map (fun c => if c =? a then b else c) s.
Proof.
  unfold Py.replace. induction s as [|c s IH]; [reflexivity|].
  cbn [Py.replace_aux Py.startswith List.length Nat.pred map].
  rewrite (Z.eqb_sym a c), andb_true_r.
  destruct (c =? a); simpl; now rewrite IH.
Qed.

Lemma replace_aux_delete_incl (old : str) (skip : nat) (s : str) :
  incl (Py.replace_aux old [] skip s) s.
Proof.
  revert skip. induction s as [|c s IH]; intros skip; simpl.
  - apply incl_refl.
  - destruct skip as [|k]; [|now apply incl_tl].
    destruct (Py.startswith old (c :: s)); simpl.
    + now apply incl_tl.
    + apply incl_cons; [now left|now apply incl_tl].
Qed.

Lemma replace_delete_incl (o : char) (os s : str) :
  incl (Py.replace (o :: os) [] s) s.
Proof. apply replace_aux_delete_incl. Qed.

Lemma flatten_by_replace (p : str) :
  Py.replace [47] [95] (Py.replace [92] [95] p) = Spec.flatten_separators p.
Proof.
  rewrite !replace_single, map_map. unfold Spec.flatten_separators.
  apply map_ext. intros c.
  destruct (c =? 92) eqn:E92.
  - apply Z.eqb_eq in E92. subst c. reflexivity.
  - destruct (c =? 47); reflexivity.
Qed.

Lemma flatten_no_separator (p : str) (c : char) :
  In c (Spec.flatten_separators p) -> c <> 47 /\ c <> 92.
Proof.
  unfold Spec.flatten_separators. intros Hin.
  apply in_map_iff in Hin as [x [E _]].
  destruct (x =? 47) eqn:E1; [simpl in E; lia|].
  destruct (x =? 92) eqn:E2; [simpl in E; lia|].
  simpl in E. subst x. apply Z.eqb_neq in E1, E2. now split.
Qed.

Lemma flatten_no_dot (p : str) :
  ~ In 46 p -> ~ In 46 (Spec.flatten_separators p).
Proof.
  unfold Spec.flatten_separators. intros Hp Hin.
  apply in_map_iff in Hin as [x [E Hx]].
  destruct ((x =? 47) || (x =? 92)); [discriminate|]. now subst x.
Qed.

Lemma flatten_app (p q : str) :
  Spec.flatten_separators (p ++ q)
  = Spec.flatten_separators p ++ Spec.flatten_separators q.
Proof. apply map_app. Qed.

(** X10: a key never holds a path separator, whatever the relative path
    is, so the name [{key}.txt] stays inside the output directory. *)
Theorem file_key_has_no_separator (relative_path : str) :
  Forall (fun c => c <> 47 /\ c <> 92) (HtmlTextExtractor.file_key relative_path)
  /\ Forall (fun c => c <> 47 /\ c <> 92) (PdfTextExtractor.file_key relative_path).
Proof.
  unfold HtmlTextExtractor.file_key, PdfTextExtractor.file_key.
  rewrite flatten_by_replace. split; apply Forall_forall; intros c Hc.
  - change (lit ".html") with (46 :: lit "html") in Hc.
    apply replace_delete_incl in Hc.
    change (lit ".htm") with (46 :: lit "htm") in Hc.
    apply replace_delete_incl in Hc.
    now apply flatten_no_separator in Hc.
  - change (lit ".pdf") with (46 :: lit "pdf") in Hc.
    apply replace_delete_incl in Hc.
    now apply flatten_no_separator in Hc.
Qed.

(** X11: for a path whose only dot is the one of its extension, at any
    depth, the key of a [.pdf] file and the key of a [.htm] file are the
    path flattened and without its extension, which is the key the
    specification describes. *)
Theorem file_key_of_plain_path (p : str) :
  ~ In 46 p ->
  PdfTextExtractor.file_key (p ++ lit ".pdf") = Spec.flatten_separators p
  /\ Spec.pdf_key (p ++ lit ".pdf") = Spec.flatten_separators p
  /\ HtmlTextExtractor.file_key (p ++ lit ".htm") = Spec.flatten_separators p
  /\ Spec.html_key (p ++ lit ".htm") = Spec.flatten_separators p.
Proof.
  intros Hp. pose proof (flatten_no_dot p Hp) as Hf.
  unfold PdfTextExtractor.file_key, HtmlTextExtractor.file_key,
    Spec.pdf_key, Spec.html_key.
  rewrite !flatten_by_replace, !flatten_app.
  change (Spec.flatten_separators (lit ".pdf")) with (lit ".pdf").
  change (Spec.flatten_separators (lit ".htm")) with (lit ".htm").
  split; [|split; [|split]].
  - change (lit ".pdf") with (46 :: lit "pdf"). unfold Py.replace.
    rewrite (replace_aux_absent 46 (lit "pdf") [] _ (46 :: lit "pdf") Hf).
    change (Py.replace_aux (46 :: lit "pdf") [] 0 (46 :: lit "pdf"))
      with (@nil Z).
    apply app_nil_r.
  - apply removesuffix_app.
  - change (lit ".htm") with (46 :: lit "htm").
    unfold Py.replace at 2.
    rewrite (replace_aux_absent 46 (lit "htm") [] _ (46 :: lit "htm") Hf).
    change (Py.replace_aux (46 :: lit "htm") [] 0 (46 :: lit "htm"))
      with (@nil Z).
    rewrite app_nil_r. change (lit ".html") with (46 :: lit "html").
    now apply replace_absent.
  - cbv zeta.
    assert (E : Spec.endswith (lit ".html")
                  (Spec.flatten_separators p ++ lit ".htm") = false).
    { unfold Spec.endswith. rewrite rev_app_distr. reflexivity. }
    rewrite E. apply removesuffix_app.
Qed.

End MoreFileKeys.

(** The path [2024/report] with either extension. *)
Lemma file_key_of_plain_path_sample :
  PdfTextExtractor.file_key (lit "2024/report.pdf") = lit "2024_report"
  /\ Spec.pdf_key (lit "2024/report.pdf") = lit "2024_report"
  /\ HtmlTextExtractor.file_key (lit "2024/report.htm") = lit "2024_report"
  /\ Spec.html_key (lit "2024/report.htm") = lit "2024_report".
Proof.
  apply (file_key_of_plain_path (lit "2024/report")).
  vm_compute. intuition discriminate.
Defined.

(** ** More about the removal of scripts and styles *)

Section MoreDecompose.

Import HtmlTextExtractor.

Lemma decompose_children_fixed (cs : list node) :
  Forall (fun c => Forall (fun m => is_script_or_style m = false)
                          (descendants_of c) -> decompose_in c = c) cs ->
  Forall (fun m => is_script_or_style m = false) (descendants cs) ->
  decompose_scripts cs = cs.
Proof.
  unfold decompose_scripts, descendants.
  induction 1 as [|c cs Hc _ IH]; intros Hok; [reflexivity|].
  simpl in Hok. inversion Hok as [|? ? Hc0 Hrest]; subst.
  apply Forall_app in Hrest as [Hd Hcs].
  simpl. rewrite Hc0. simpl. now rewrite (Hc Hd), (IH Hcs).
Qed.

Lemma decompose_in_fixed (n : node) :
  Forall (fun m => is_script_or_style m = false) (descendants_of n) ->
  decompose_in n = n.
Proof.
  induction n as [s|nm cls cs IH] using node_nested_ind; [reflexivity|].
  intros Hok. simpl. f_equal.
  exact (decompose_children_fixed cs IH Hok).
Qed.

Lemma decompose_scripts_fixed (doc : soup) :
  Forall (fun m => is_script_or_style m = false) (descendants doc) ->
  decompose_scripts doc = doc.
Proof.
  apply decompose_children_fixed. apply Forall_forall.
  intros c _. apply decompose_in_fixed.
Qed.

(** X12: after the removal no script and no style element is left at any
    depth of the tree, and removing again changes nothing. *)
Theorem scripts_and_styles_are_removed (doc : soup) :
  Forall (fun m => is_script_or_style m = false)
         (descendants (decompose_scripts doc))
  /\ decompose_scripts (decompose_scripts doc) = decompose_scripts doc.
Proof.
  assert (C : Forall (fun m => is_script_or_style m = false)
                     (descendants (decompose_scripts doc))).
  { apply decompose_children_clean. apply Forall_forall.
    intros c _. apply decompose_in_clean. }
  split; [exact C|]. now apply decompose_scripts_fixed.
Qed.

End MoreDecompose.

(** ** The loop of the batch runners *)

Section RunnerLoop.
Variable file : Type.
Variable key : file -> str.
Variable text : file -> str.

Local Abbreviation run :=
  (fold_left (fun (d : Dict.t) (f : file) =>
                if truthy (text f) then Dict.set d (key f) (text f) else d)).

Lemma get_set_same (d : Dict.t) (k v : str) :
  Dict.get (Dict.set d k v) k = Some v.
Proof.
  induction d as [|[k' v'] d IH]; simpl.
  - now rewrite str_eqb_refl.
  - destruct (str_eqb k' k) eqn:E; simpl; now rewrite E.
Qed.

Lemma get_set_other (d : Dict.t) (k k' v : str) :
  k <> k' -> Dict.get (Dict.set d k v) k' = Dict.get d k'.
Proof.
  intros Hk. induction d as [|[k0 v0] d IH]; simpl.
  - apply str_eqb_neq in Hk. now rewrite Hk.
  - destruct (str_eqb k0 k) eqn:E; simpl; [|now rewrite IH].
    apply str_eqb_eq in E. subst k0.
    apply str_eqb_neq in Hk. now rewrite Hk.
Qed.

Lemma get_of_key (d : Dict.t) (k : str) :
  In k (Dict.keys d) -> exists v, Dict.get d k = Some v.
Proof.
  induction d as [|[k' v'] d IH]; simpl; [tauto|].
  intros [E|Hin].
  - subst k'. rewrite str_eqb_refl. now exists v'.
  - destruct (str_eqb k' k); [now exists v'|now apply IH].
Qed.

Lemma run_get_skip (after : list file) (d : Dict.t) (k : str) :
  (forall g, In g after -> key g = k -> text g = []) ->
  Dict.get (run after d) k = Dict.get d k.
Proof.
  revert d. induction after as [|g after IH]; intros d Hskip; [reflexivity|].
  simpl. rewrite IH by (intros; apply Hskip; simpl; auto).
  destruct (truthy (text g)) eqn:E; [|reflexivity].
  apply get_set_other. intros Hk. apply truthy_true in E.
  apply E. apply Hskip; simpl; auto.
Qed.

Lemma run_last_wins (before : list file) (f : file) (after : list file)
      (acc : Dict.t) :
  text f <> [] ->
  (forall g, In g after -> key g = key f -> text g = []) ->
  Dict.get (run (before ++ f :: after) acc) (key f) = Some (text f).
Proof.
  intros Hf Hafter. rewrite fold_left_app. simpl.
  rewrite (run_get_skip after _ (key f) Hafter).
  apply truthy_true in Hf. rewrite Hf. apply get_set_same.
Qed.

Lemma run_get_from (files : list file) (acc : Dict.t) (k v : str) :
  Dict.get (run files acc) k = Some v ->
  Dict.get acc k = Some v
  \/ exists f, In f files /\ key f = k /\ text f = v /\ v <> [].
Proof.
  revert acc. induction files as [|f files IH]; intros acc; simpl; [auto|].
  intros Hget. destruct (IH _ Hget) as [Hacc|[g [Hg R]]].
  - destruct (truthy (text f)) eqn:E; [|auto].
    destruct (list_eq_dec Z.eq_dec (key f) k) as [Ek|Ek].
    + subst k. rewrite get_set_same in Hacc. injection Hacc as <-.
      right. exists f. apply truthy_true in E. simpl; auto.
    + rewrite (get_set_other acc (key f) k (text f) Ek) in Hacc. auto.
  - right. exists g. simpl; auto.
Qed.

Lemma run_keys_nodup (files : list file) (acc : Dict.t) :
  NoDup (Dict.keys acc) -> NoDup (Dict.keys (run files acc)).
Proof.
  revert acc. induction files as [|f files IH]; intros acc Hacc; simpl;
    [exact Hacc|].
  apply IH. destruct (truthy (text f)); [|exact Hacc].
  now apply set_keys_nodup.
Qed.

Lemma run_get_present (files : list file) (d : Dict.t) (k : str) :
  (exists g, In g files /\ key g = k /\ text g <> []) ->
  Dict.get (run files d) k <> None.
Proof.
  revert d. induction files as [|x l IH]; intros d [g [Hg [Hgk Hgt]]];
    [destruct Hg|].
  simpl.
  destruct (in_dec (list_eq_dec Z.eq_dec) k
              (map key (filter (fun f => truthy (text f)) l))) as [Hin|Hout].
  - apply IH. apply in_map_iff in Hin as [y [Hy Hyin]].
    apply filter_In in Hyin as [Hyin Hyt]. exists y.
    repeat split; [exact Hyin|exact Hy|now apply truthy_true].
  - rewrite (run_get_skip l _ k).
    + destruct Hg as [->|Hg].
      * apply truthy_true in Hgt. rewrite Hgt, <- Hgk, get_set_same.
        discriminate.
      * exfalso. apply Hout. apply in_map_iff. exists g.
        split; [exact Hgk|]. apply filter_In.
        split; [exact Hg|now apply truthy_true].
    + intros y Hy Hyk. destruct (text y) eqn:Ey; [reflexivity|exfalso].
      apply Hout. apply in_map_iff. exists y. split; [exact Hyk|].
      apply filter_In. split; [exact Hy|]. now rewrite Ey.
Qed.

Lemma run_get_none (files : list file) (k : str) :
  (forall f, In f files -> key f = k -> text f = []) ->
  Dict.get (run files []) k = None.
Proof.
  intros Hnone. now rewrite (run_get_skip files [] k Hnone).
Qed.

End RunnerLoop.

Section OtherRunners.
Context `{UnicodeData}.

(** X13: the mapping built from the HTML files has no key twice; a key that
    is present holds a non-empty text, the text of one of the files with
    that key; and when several files flatten to the same key, the text kept
    is the one of the last of them that has a text. *)
Theorem html_batch_last_file_wins (html_files : list HtmlTextExtractor.html_file) :
  NoDup (Dict.keys (HtmlTextExtractor.process_all_html_files html_files))
  /\ (forall k v,
         Dict.get (HtmlTextExtractor.process_all_html_files html_files) k = Some v ->
         v <> []
         /\ exists f, In f html_files
                      /\ HtmlTextExtractor.file_key (HtmlTextExtractor.relative_path f) = k
                      /\ HtmlTextExtractor.extract_text_from_html f = v)
  /\ (forall before f after,
         html_files = before ++ f :: after ->
         HtmlTextExtractor.extract_text_from_html f <> [] ->
         (forall g, In g after ->
                    HtmlTextExtractor.file_key (HtmlTextExtractor.relative_path g)
                    = HtmlTextExtractor.file_key (HtmlTextExtractor.relative_path f) ->
                    HtmlTextExtractor.extract_text_from_html g = []) ->
         Dict.get (HtmlTextExtractor.process_all_html_files html_files)
           (HtmlTextExtractor.file_key (HtmlTextExtractor.relative_path f))
         = Some (HtmlTextExtractor.extract_text_from_html f)).
Proof.
  unfold HtmlTextExtractor.process_all_html_files. cbv zeta.
  split; [|split].
  - apply (run_keys_nodup _
             (fun f => HtmlTextExtractor.file_key (HtmlTextExtractor.relative_path f))
             HtmlTextExtractor.extract_text_from_html).
    constructor.
  - intros k v Hget.
    destruct (run_get_from _
                (fun f => HtmlTextExtractor.file_key (HtmlTextExtractor.relative_path f))
                HtmlTextExtractor.extract_text_from_html _ _ _ _ Hget)
      as [Hacc|[f [Hf [Hk [Ht Hv]]]]]; [discriminate|].
    split; [exact Hv|]. now exists f.
  - intros before f after -> Hf Hafter.
    exact (run_last_wins _
             (fun f => HtmlTextExtractor.file_key (HtmlTextExtractor.relative_path f))
             HtmlTextExtractor.extract_text_from_html before f after [] Hf Hafter).
Qed.

(** X14: in the mapping built from the PDF files, a key is absent exactly
    when no file with that key has a text, and a key that is present holds
    the non-empty text of one of the files with that key. *)
Theorem pdf_batch_lookup (pdf_files : list PdfTextExtractor.pdf_file) (k : str) :
  (Dict.get (PdfTextExtractor.process_all_pdf_files pdf_files) k = None
   <-> forall f, In f pdf_files ->
                 PdfTextExtractor.file_key (PdfTextExtractor.relative_path f) = k ->
                 PdfTextExtractor.extract_text_from_pdf f = [])
  /\ (forall v,
         Dict.get (PdfTextExtractor.process_all_pdf_files pdf_files) k = Some v ->
         v <> []
         /\ exists f, In f pdf_files
                      /\ PdfTextExtractor.file_key (PdfTextExtractor.relative_path f) = k
                      /\ PdfTextExtractor.extract_text_from_pdf f = v).
Proof.
  unfold PdfTextExtractor.process_all_pdf_files. cbv zeta.
  set (key := fun f => PdfTextExtractor.file_key (PdfTextExtractor.relative_path f)).
  assert (S : forall v,
             Dict.get
               (fold_left
                  (fun d f =>
                     if truthy (PdfTextExtractor.extract_text_from_pdf f)
                     then Dict.set d (key f) (PdfTextExtractor.extract_text_from_pdf f)
                     else d) pdf_files []) k = Some v ->
             v <> []
             /\ exists f, In f pdf_files /\ key f = k
                          /\ PdfTextExtractor.extract_text_from_pdf f = v).
  { intros v Hget.
    destruct (run_get_from _ key PdfTextExtractor.extract_text_from_pdf _ _ _ _ Hget)
      as [Hacc|[f [Hf [Hk [Ht Hv]]]]]; [discriminate|].
    split; [exact Hv|]. now exists f. }
  split; [|exact S]. split.
  - intros Hnone f Hf Hk.
    destruct (PdfTextExtractor.extract_text_from_pdf f) as [|c r] eqn:E;
      [reflexivity|exfalso].
    apply (run_get_present _ key PdfTextExtractor.extract_text_from_pdf
             pdf_files [] k); [|exact Hnone].
    exists f. rewrite E. repeat split; [exact Hf|exact Hk|discriminate].
  - intros Hnone.
    exact (run_get_none _ key PdfTextExtractor.extract_text_from_pdf pdf_files k Hnone).
Qed.

End OtherRunners.

(** Two HTML files that flatten to the key [a_b]: the text of the first is
    replaced by the text of the second. *)
Lemma html_batch_last_file_wins_sample :
  Dict.get
    (@HtmlTextExtractor.process_all_html_files Sample.ascii_db
       [Corpus.nested; Corpus.flat]) (lit "a_b")
  = Some (lit "First one Second").
Proof.
  apply (proj2 (proj2 (@html_batch_last_file_wins Sample.ascii_db
                         [Corpus.nested; Corpus.flat]))
           [Corpus.nested] Corpus.flat []).
  - reflexivity.
  - vm_compute. discriminate.
  - intros g [].
Defined.

(** A report with a blank page and a scan without text. *)
Lemma pdf_batch_lookup_sample :
  Dict.get
    (@PdfTextExtractor.process_all_pdf_files Sample.ascii_db
       [Corpus.report; Corpus.scanned]) (lit "scanned")
  = None.
Proof.
  apply (proj2 (proj1 (@pdf_batch_lookup Sample.ascii_db
                         [Corpus.report; Corpus.scanned] (lit "scanned")))).
  intros f [<-|[<-|[]]] Hk.
  - vm_compute in Hk. discriminate.
  - reflexivity.
Defined.

(** ** The files a run writes, and the summary *)

Section RunOutputs.
Context `{UnicodeData}.

Import DocxTextExtractor.

Lemma docx_key_is_a_stem (docx_files : list docx_file) (k : str) :
  In k (Dict.keys (process_all_docx_files docx_files)) ->
  exists f, In f docx_files /\ stem f = k /\ extract_text_from_docx f <> [].
Proof.
  intros Hin. apply get_of_key in Hin as [v Hget].
  unfold process_all_docx_files in Hget. cbv zeta in Hget.
  destruct (run_get_from _ stem extract_text_from_docx _ _ _ _ Hget)
    as [Hacc|[f [Hf [Hk [Ht Hv]]]]]; [discriminate|].
  exists f. rewrite Ht. auto.
Qed.

Lemma txt_name_injective (a b : str) :
  a ++ lit ".txt" = b ++ lit ".txt" -> a = b.
Proof. apply app_inv_tail. Qed.

Lemma txt_name_is_not_the_table (k : str) :
  k ++ lit ".txt" <> lit "metadata.csv".
Proof.
  intros E. apply (f_equal (@rev Z)) in E. rewrite rev_app_distr in E.
  vm_compute in E. discriminate.
Qed.

Lemma nodup_map_injective {A B} (f : A -> B) (l : list A) :
  (forall a b, f a = f b -> a = b) -> NoDup l -> NoDup (map f l).
Proof.
  intros Hf. induction 1 as [|x l Hx _ IH]; simpl; constructor; [|exact IH].
  intros Hin. apply in_map_iff in Hin as [y [E Hy]].
  apply Hf in E. now subst y.
Qed.

Lemma written_names_save (d : Dict.t) :
  written_names (Writer.save_extracted_texts d)
  = map (fun k => k ++ lit ".txt") (Dict.keys d).
Proof.
  unfold written_names, Writer.save_extracted_texts, Dict.keys.
  induction d as [|[k v] d IH]; [reflexivity|].
  simpl. now rewrite IH.
Qed.

(** X15: unless a document is itself named [combined_novel_text.docx], no
    two writes of a run go to the same file: the per-document text files,
    the combined file and the table all have different names. *)
Theorem docx_run_writes_distinct_files (docx_files : list docx_file) :
  (forall f, In f docx_files -> stem f <> lit "combined_novel_text") ->
  NoDup (written_names (main docx_files)).
Proof.
  intros Hstems. unfold main. cbv zeta.
  destruct (Dict.is_empty (process_all_docx_files docx_files));
    [simpl; constructor|].
  unfold written_names. cbn [app flat_map written_name].
  rewrite flat_map_app.
  fold (written_names (save_extracted_texts (process_all_docx_files docx_files))).
  unfold save_extracted_texts. rewrite written_names_save.
  unfold create_combined_dataset, create_metadata,
    Writer.create_combined_dataset, Writer.create_metadata.
  cbn [app flat_map written_name].
  apply NoDup_app.
  - apply nodup_map_injective; [exact txt_name_injective|].
    apply process_all_keys_nodup.
  - repeat constructor; simpl; [|tauto].
    intros [E|[]]. vm_compute in E. discriminate.
  - intros name Hname Hin. apply in_map_iff in Hname as [k [<- Hk]].
    destruct Hin as [E|[E|[]]].
    + change (lit "combined_novel_text.txt")
        with (lit "combined_novel_text" ++ lit ".txt") in E.
      apply txt_name_injective in E.
      destruct (docx_key_is_a_stem docx_files k Hk) as [f [Hf [Hs _]]].
      apply (Hstems f Hf). congruence.
    + symmetry in E. exact (txt_name_is_not_the_table k E).
Qed.

Lemma sum_le_pointwise {A} (f g : A -> nat) (l : list A) :
  Forall (fun x => (f x <= g x)%nat) l ->
  (list_sum (map f l) <= list_sum (map g l))%nat.
Proof.
  induction 1 as [|x l Hx _ IH]; simpl; [lia|]. lia.
Qed.

(** X16: in the summary of a run, the number of files is at most the total
    number of words, which is at most the total number of characters: every
    stored text has a word, and every word a character. *)
Theorem docx_summary_totals_ordered (docx_files : list docx_file) :
  (Summary.total_files (Writer.metadata (process_all_docx_files docx_files))
   <= Summary.total_words (Writer.metadata (process_all_docx_files docx_files)))%nat
  /\ (Summary.total_words (Writer.metadata (process_all_docx_files docx_files))
      <= Summary.total_chars (Writer.metadata (process_all_docx_files docx_files)))%nat.
Proof.
  rewrite metadata_rows.
  unfold Summary.total_files, Summary.total_words, Summary.total_chars.
  rewrite length_map, !map_map. cbn [word_count character_count].
  assert (P : Forall (fun kv : str * str =>
                        (1 <= List.length (Py.split (snd kv)))%nat
                        /\ (List.length (Py.split (snd kv))
                            <= List.length (snd kv))%nat)
                     (process_all_docx_files docx_files)).
  { apply (process_all_values
             (fun v => (1 <= List.length (Py.split v))%nat
                       /\ (List.length (Py.split v) <= List.length v)%nat)).
    intros f _ Hne. split.
    - unfold extract_text_from_docx in *. destruct (paragraphs f); [|congruence].
      pose proof (clean_text_nonempty_words _ Hne) as Hw.
      destruct (Py.split (clean_text (joined_paragraphs l))); [congruence|].
      simpl. lia.
    - pose proof (length_split_aux (extract_text_from_docx f) []) as L.
      unfold Py.split. simpl in L. lia. }
  split.
  - replace (List.length (process_all_docx_files docx_files))
      with (list_sum (map (fun _ : str * str => 1%nat)
                          (process_all_docx_files docx_files))).
    + apply sum_le_pointwise. eapply Forall_impl; [|exact P].
      intros kv [H1 _]. exact H1.
    + clear P. induction (process_all_docx_files docx_files); simpl;
        [reflexivity|]. now f_equal.
  - apply sum_le_pointwise. eapply Forall_impl; [|exact P].
    intros kv [_ H2]. exact H2.
Qed.

End RunOutputs.

(** The batch of three documents, none of them named like the combined
    file. *)
Lemma docx_run_writes_distinct_files_sample :
  NoDup (written_names
           (@DocxTextExtractor.main Sample.ascii_db
              [Sample.unreadable; Sample.hello; Sample.symbols_only])).
Proof.
  apply (@docx_run_writes_distinct_files Sample.ascii_db).
  intros f [<-|[<-|[<-|[]]]]; vm_compute; discriminate.
Defined.

(** ** Files without text *)

Section SkippedFiles.
Context `{UnicodeData}.

Lemma fold_skip {A} (step : Dict.t -> A -> Dict.t) (before : list A) (f : A)
      (after : list A) (acc : Dict.t) :
  (forall d, step d f = d) ->
  fold_left step (before ++ f :: after) acc
  = fold_left step (before ++ after) acc.
Proof.
  intros Hf. rewrite !fold_left_app. simpl. now rewrite Hf.
Qed.

(** X17: a file that cannot be read, or that has no text left after
    cleaning, changes nothing in the result mapping: the batch gives what it
    gives without that file, in each of the three runners. *)
Theorem file_without_text_is_skipped :
  (forall before f after,
      DocxTextExtractor.extract_text_from_docx f = [] ->
      DocxTextExtractor.process_all_docx_files (before ++ f :: after)
      = DocxTextExtractor.process_all_docx_files (before ++ after))
  /\ (forall before f after,
         HtmlTextExtractor.extract_text_from_html f = [] ->
         HtmlTextExtractor.process_all_html_files (before ++ f :: after)
         = HtmlTextExtractor.process_all_html_files (before ++ after))
  /\ (forall before f after,
         PdfTextExtractor.extract_text_from_pdf f = [] ->
         PdfTextExtractor.process_all_pdf_files (before ++ f :: after)
         = PdfTextExtractor.process_all_pdf_files (before ++ after)).
Proof.
  split; [|split]; intros before f after E.
  - unfold DocxTextExtractor.process_all_docx_files. apply fold_skip.
    intros d. cbv zeta. now rewrite E.
  - unfold HtmlTextExtractor.process_all_html_files. apply fold_skip.
    intros d. cbv zeta. now rewrite E.
  - unfold PdfTextExtractor.process_all_pdf_files. apply fold_skip.
    intros d. cbv zeta. now rewrite E.
Qed.

(** X18: with distinct stems, the per-document text files of a DOCX run are
    those of the documents that have a text, in the order of discovery, each
    named after its stem and holding its extracted text; the blocks of the
    combined file follow the same order. *)
Theorem docx_outputs_follow_discovery (docx_files : list DocxTextExtractor.docx_file) :
  NoDup (map DocxTextExtractor.stem docx_files) ->
  DocxTextExtractor.save_extracted_texts
    (DocxTextExtractor.process_all_docx_files docx_files)
  = map (fun f => WriteText (DocxTextExtractor.stem f ++ lit ".txt")
                    (DocxTextExtractor.extract_text_from_docx f))
        (filter (fun f => truthy (DocxTextExtractor.extract_text_from_docx f))
                docx_files)
  /\ Writer.combined_text (DocxTextExtractor.process_all_docx_files docx_files)
     = Py.join [10]
         (map (fun f => lit "=== " ++ DocxTextExtractor.stem f ++ lit " ===" ++ [10]
                        ++ DocxTextExtractor.extract_text_from_docx f ++ [10])
              (filter (fun f => truthy (DocxTextExtractor.extract_text_from_docx f))
                      docx_files)).
Proof.
  intros Hnd. rewrite (process_all_distinct_stems docx_files Hnd). split.
  - unfold DocxTextExtractor.save_extracted_texts, Writer.save_extracted_texts.
    now rewrite map_map.
  - rewrite combined_text_blocks, map_map. reflexivity.
Qed.

End SkippedFiles.

(** The unreadable document between two others. *)
Lemma file_without_text_is_skipped_sample :
  @DocxTextExtractor.process_all_docx_files Sample.ascii_db
    ([Sample.hello] ++ Sample.unreadable :: [Sample.two_paragraphs])
  = @DocxTextExtractor.process_all_docx_files Sample.ascii_db
      ([Sample.hello] ++ [Sample.two_paragraphs]).
Proof.
  apply (proj1 (@file_without_text_is_skipped Sample.ascii_db)).
  reflexivity.
Defined.

(** The batch of three documents of which one has a text. *)
Lemma docx_outputs_follow_discovery_sample :
  DocxTextExtractor.save_extracted_texts
    (@DocxTextExtractor.process_all_docx_files Sample.ascii_db
       [Sample.two_paragraphs; Sample.unreadable; Sample.hello])
  = [WriteText (lit "novel.txt") (lit "a b");
     WriteText (lit "hello.txt") (lit "Hello world")].
Proof.
  assert (Hnd : NoDup (map DocxTextExtractor.stem
                         [Sample.two_paragraphs; Sample.unreadable; Sample.hello])).
  { vm_compute. repeat constructor; simpl; intuition discriminate. }
  rewrite (proj1 (@docx_outputs_follow_discovery Sample.ascii_db _ Hnd)).
  reflexivity.
Defined.

(** ** Which keys the DOCX batch records *)

Section RecordedKeys.
Context `{UnicodeData}.

Import DocxTextExtractor.

Lemma key_of_get (d : Dict.t) (k : str) :
  Dict.get d k <> None -> In k (Dict.keys d).
Proof.
  induction d as [|[k' v'] d IH]; simpl; [congruence|].
  destruct (str_eqb k' k) eqn:E.
  - apply str_eqb_eq in E. auto.
  - auto.
Qed.

Lemma docx_key_recorded (docx_files : list docx_file) (f : docx_file) :
  In f docx_files -> extract_text_from_docx f <> [] ->
  In (stem f) (Dict.keys (process_all_docx_files docx_files)).
Proof.
  intros Hf Hne. apply key_of_get.
  unfold process_all_docx_files. cbv zeta.
  apply (run_get_present _ stem extract_text_from_docx docx_files [] (stem f)).
  now exists f.
Qed.

Lemma fold_left_fixed {A B} (step : B -> A -> B) (l : list A) (acc : B) :
  Forall (fun x => forall d, step d x = d) l -> fold_left step l acc = acc.
Proof.
  intros Hl. revert acc. induction Hl as [|x l Hx _ IH]; intros acc;
    [reflexivity|].
  simpl. rewrite Hx. apply IH.
Qed.

Lemma docx_empty_text_fixes (l : list docx_file) :
  Forall (fun g => extract_text_from_docx g = []) l ->
  Forall (fun g => forall d : Dict.t,
              (let text := extract_text_from_docx g in
               if truthy text then Dict.set d (stem g) text else d) = d) l.
Proof.
  intros Hl. eapply Forall_impl; [|exact Hl].
  intros g Hg d. cbv zeta. now rewrite Hg.
Qed.

(** C8, as amended: no stored text is empty, and a key is in the result
    mapping exactly when some processed file of that stem has a non-empty
    cleaned text; hence, when the stems are distinct, the key of a file is
    there exactly when the file's own cleaned text is not empty.  When one
    file cleans to [Hello world] and the others to the empty string, the
    mapping has that one entry and the table that one row, with a word
    count of 2. *)
Theorem batch_never_stores_empty_text (docx_files : list docx_file) :
  (forall k v, In (k, v) (process_all_docx_files docx_files) -> v <> [])
  /\ (forall k,
         In k (Dict.keys (process_all_docx_files docx_files))
         <-> exists f, In f docx_files /\ stem f = k
                       /\ extract_text_from_docx f <> [])
  /\ (NoDup (map stem docx_files) ->
      forall f, In f docx_files ->
                (In (stem f) (Dict.keys (process_all_docx_files docx_files))
                 <-> extract_text_from_docx f <> []))
  /\ (forall before f after,
         docx_files = before ++ f :: after ->
         Forall (fun g => extract_text_from_docx g = []) (before ++ after) ->
         extract_text_from_docx f = lit "Hello world" ->
         process_all_docx_files docx_files = [(stem f, lit "Hello world")]
         /\ create_metadata (process_all_docx_files docx_files)
            = [WriteCsv (lit "metadata.csv")
                 [{| filename := stem f; character_count := 11;
                     word_count := 2; line_count := 1 |}]]).
Proof.
  assert (K : forall k,
             In k (Dict.keys (process_all_docx_files docx_files))
             <-> exists f, In f docx_files /\ stem f = k
                           /\ extract_text_from_docx f <> []).
  { intros k. split.
    - apply docx_key_is_a_stem.
    - intros [f [Hf [<- Hne]]]. now apply docx_key_recorded. }
  split; [|split; [exact K|split]].
  - intros k v Hin.
    pose proof (process_all_values (fun v => v <> []) docx_files) as P.
    rewrite Forall_forall in P. apply (P (fun _ _ Hne => Hne) (k, v) Hin).
  - intros Hnd f Hf. rewrite K. split.
    + intros [g [Hg [Hs Hne]]].
      now rewrite <- (stem_injective docx_files g f Hnd Hg Hf Hs).
    + intros Hne. now exists f.
  - intros before f after Hfiles Hothers Hf.
    apply Forall_app in Hothers as [Hb Ha].
    assert (E1 : process_all_docx_files docx_files = [(stem f, lit "Hello world")]).
    { rewrite Hfiles. unfold process_all_docx_files.
      rewrite fold_left_app.
      rewrite (fold_left_fixed _ before _ (docx_empty_text_fixes before Hb)).
      cbn [fold_left].
      rewrite (fold_left_fixed _ after _ (docx_empty_text_fixes after Ha)).
      cbv zeta. rewrite Hf. reflexivity. }
    split; [exact E1|]. rewrite E1. reflexivity.
Qed.

End RecordedKeys.

(** C8, as stated, fails: the files [.docx.docx] and [.docx] of one
    directory have the same stem; the second cannot be read, so its cleaned
    text is empty, and yet its key is in the result mapping. *)
Lemma shared_stem_records_key_of_empty_file :
  DocxTextExtractor.stem Corpus.dot_docx = DocxTextExtractor.stem Corpus.dot_docx_docx
  /\ (forall U : UnicodeData,
         @DocxTextExtractor.extract_text_from_docx U Corpus.dot_docx = []
         /\ In (DocxTextExtractor.stem Corpus.dot_docx)
               (Dict.keys (@DocxTextExtractor.process_all_docx_files U
                             [Corpus.dot_docx_docx; Corpus.dot_docx]))).
Proof.
  split; [reflexivity|]. intros U. split; [reflexivity|].
  vm_compute. auto.
Qed.

(** The batch of two files that clean to the empty string around one that
    cleans to [Hello world]. *)
Lemma batch_never_stores_empty_text_sample :
  @DocxTextExtractor.process_all_docx_files Sample.ascii_db
    [Sample.unreadable; Sample.hello; Sample.symbols_only]
  = [(lit "hello", lit "Hello world")]
  /\ DocxTextExtractor.create_metadata
       (@DocxTextExtractor.process_all_docx_files Sample.ascii_db
          [Sample.unreadable; Sample.hello; Sample.symbols_only])
     = [WriteCsv (lit "metadata.csv")
          [{| filename := lit "hello"; character_count := 11;
              word_count := 2; line_count := 1 |}]].
Proof.
  apply (proj2 (proj2 (proj2 (@batch_never_stores_empty_text Sample.ascii_db _)))
           [Sample.unreadable] Sample.hello [Sample.symbols_only]).
  - reflexivity.
  - repeat constructor.
  - reflexivity.
Defined.
